(** * free5gc-amf-operator: the charm's event handlers, embedded and verified

    Source: [src/charm.py] (class [Free5GcAMFOperatorCharm]).

    The charm talks to three collaborators: the workload container (Pebble),
    the Kubernetes API (a lightkube [Client]) and the Juju event it handles.
    A handler is embedded as a function from a [World] (what the
    collaborators hold when the handler starts) to a [Run]: how the handler
    ended (returned or raised), the world it left, and the calls it issued
    on its collaborators, in order.  [logger.info] calls have no effect on
    any of these and are left out. *)

From Stdlib Require Import Ascii String NArith.
From stdpp Require Import base gmap strings list fin_maps.

Open Scope string_scope.
Set Warnings "-register-all".

(** ** Python strings and [json.dumps] *)

Module Py.

(** [s.split(sep)[0]] for a one-character separator: the part of [s] before
    the first [sep], all of [s] when there is none. *)
Fixpoint split_head (sep : ascii) (s : string) : string :=
  match s with
  | EmptyString => EmptyString
  | String c s' => if Ascii.eqb c sep then EmptyString else String c (split_head sep s')
  end.

(** [needle in haystack] on strings. *)
Fixpoint contains (needle haystack : string) : bool :=
  String.prefix needle haystack ||
  match haystack with
  | EmptyString => false
  | String _ h => contains needle h
  end.

(** The substring relation [contains] decides. *)
Definition substring (needle haystack : string) : Prop :=
  ∃ before after, haystack = before +:+ needle +:+ after.

End Py.

Module Json.

(** The values the charm serialises: strings, booleans, lists and dicts.  A
    Python dict keeps insertion order and [json.dumps] follows it, so an
    object is an association list. *)
Inductive value :=
| JString (s : string)
| JBool (b : bool)
| JArray (items : list value)
| JObject (members : list (string * value)).

Definition dq : ascii := "034"%char.
Definition backslash : ascii := "092"%char.

Definition hex_digit (n : N) : ascii :=
  match n with
  | 0 => "0" | 1 => "1" | 2 => "2" | 3 => "3" | 4 => "4" | 5 => "5" | 6 => "6"
  | 7 => "7" | 8 => "8" | 9 => "9" | 10 => "a" | 11 => "b" | 12 => "c"
  | 13 => "d" | 14 => "e" | _ => "f"
  end%N%char.

(** [json.encoder.py_encode_basestring_ascii] on one character (code points
    below 256): printable ASCII stays, the quote and the backslash get a
    backslash, the five named control characters their letter, the rest a
    four-digit lowercase [\u] escape. *)
Definition escape_char (c : ascii) : string :=
  let n := N_of_ascii c in
  if Ascii.eqb c dq then String backslash (String dq EmptyString)
  else if Ascii.eqb c backslash then String backslash (String backslash EmptyString)
  else if (n =? 8)%N then String backslash "b"
  else if (n =? 9)%N then String backslash "t"
  else if (n =? 10)%N then String backslash "n"
  else if (n =? 12)%N then String backslash "f"
  else if (n =? 13)%N then String backslash "r"
  else if ((32 <=? n) && (n <=? 126))%N then String c EmptyString
  else String backslash
         (String "u" (String "0" (String "0"
            (String (hex_digit (n / 16)) (String (hex_digit (n mod 16)) EmptyString))))).

Fixpoint escape (s : string) : string :=
  match s with
  | EmptyString => EmptyString
  | String c s' => escape_char c +:+ escape s'
  end.

Definition encode_string (s : string) : string :=
  String dq (escape s +:+ String dq EmptyString).

(** [json.dumps(v)] with the default separators [", "] and [": "]. *)
Fixpoint dumps (v : value) : string :=
  match v with
  | JString s => encode_string s
  | JBool true => "true"
  | JBool false => "false"
  | JArray items =>
      "[" +:+
      (fix items_dumps (l : list value) : string :=
         match l with
         | [] => EmptyString
         | x :: l' =>
             match l' with
             | [] => dumps x
             | _ :: _ => dumps x +:+ ", " +:+ items_dumps l'
             end
         end) items +:+ "]"
  | JObject members =>
      "{" +:+
      (fix members_dumps (l : list (string * value)) : string :=
         match l with
         | [] => EmptyString
         | (k, x) :: l' =>
             match l' with
             | [] => encode_string k +:+ ": " +:+ dumps x
             | _ :: _ => encode_string k +:+ ": " +:+ dumps x +:+ ", " +:+ members_dumps l'
             end
         end) members +:+ "}"
  end.

(** Reading a serialised structure back: [v[key]] and [v[i]]. *)
Definition member (key : string) (v : value) : option value :=
  match v with
  | JObject members => snd <$> List.find (λ kv, String.eqb (fst kv) key) members
  | _ => None
  end.

Definition item (i : nat) (v : value) : option value :=
  match v with
  | JArray items => items !! i
  | _ => None
  end.

(** [v[s1][s2]...] for a path of keys and indices. *)
Inductive selector :=
| Key (k : string)
| Index (i : nat).

Fixpoint at_path (p : list selector) (v : value) : option value :=
  match p with
  | [] => Some v
  | Key k :: p' =>
      match member k v with
      | Some v' => at_path p' v'
      | None => None
      end
  | Index i :: p' =>
      match item i v with
      | Some v' => at_path p' v'
      | None => None
      end
  end.

(** [quoted s] is [s] between double quotes, as [dumps] prints a string
    without special characters. *)
Definition quoted (s : string) : string := String dq (s +:+ String dq EmptyString).

End Json.

(** ** Module constants ([charm.py], lines 27-29) *)

Definition BASE_CONFIG_PATH : string := "/free5gc/config".
Definition CONFIG_FILE_NAME : string := "amfcfg.yaml".
Definition NETWORK_ATTACHMENT_DEFINITION_NAME : string := "n2network-amf".

(** The path both [_write_config_file] and [_config_file_is_written] build
    with [f"{BASE_CONFIG_PATH}/{CONFIG_FILE_NAME}"]. *)
Definition config_file_path : string :=
  BASE_CONFIG_PATH +:+ "/" +:+ CONFIG_FILE_NAME.

(** The pod-template annotation Multus reads. *)
Definition networks_annotation : string := "k8s.v1.cni.cncf.io/networks".

(** ** Objects exchanged with the collaborators *)

(** [lightkube.models.meta_v1.ObjectMeta], the two fields the charm reads or
    sets.  Both are optional in lightkube and default to [None]. *)
Record ObjectMeta := {
  meta_name : option string;
  meta_annotations : option (gmap string string);
}.

(** The generic resource of [network_attachment_definition.py]: metadata and
    a free-form [spec] dict. *)
Record NetworkAttachmentDefinition := {
  nad_metadata : ObjectMeta;
  nad_spec : gmap string string;
}.

(** [StatefulSet], along the path [statefulset.spec.template.metadata]. *)
Record PodTemplateSpec := { template_metadata : option ObjectMeta }.
Record StatefulSetSpec := { spec_template : PodTemplateSpec }.
Record StatefulSet := {
  sts_metadata : ObjectMeta;
  sts_spec : StatefulSetSpec;
}.

(** [ops.pebble.Layer] as the dict [_pebble_layer] builds it. *)
Record Service := {
  override : string;
  startup : string;
  command : string;
  environment : gmap string string;
}.

Record Layer := {
  summary : string;
  description : string;
  services : gmap string Service;
}.

(** [ops.model] unit statuses. *)
Inductive Status :=
| UnknownStatus
| MaintenanceStatus (message : string)
| BlockedStatus (message : string)
| WaitingStatus (message : string)
| ActiveStatus.

(** Exceptions a handler can end with.  [ApiError] carries
    [e.status.reason]; [OtherError] stands for any exception that is not an
    [ApiError] (an [httpx] transport error, say). *)
Inductive exn :=
| ApiError (reason : string)
| KeyError (key : string)
| TypeError
| AttributeError
| OtherError (name : string).

Inductive Kind := NetworkAttachmentDefinitionKind | StatefulSetKind.
Inductive Method := Get | Create | Patch | Delete.

(** One call on a collaborator, with what it was given and what it
    answered ([err = None]: the call returned). *)
Inductive Call :=
| ContainerCanConnect (answer : bool)
| ContainerPush (path source : string)
| ContainerExists (path : string) (answer : bool)
| ContainerAddLayer (label : string) (layer : Layer) (combine : bool)
| ContainerReplan
| EventDefer
| ClientGet (res : Kind) (name namespace : string) (err : option exn)
| ClientCreate (obj : NetworkAttachmentDefinition) (namespace : string) (err : option exn)
| ClientDelete (res : Kind) (name namespace : string) (err : option exn)
| ClientPatch (res : Kind) (name : string) (obj : StatefulSet) (namespace : string)
    (err : option exn).

(** Modelled from the spec: the template [src/templates/amfcfg.yaml.j2] is
    not among the sources.  The spec gives the renderer as a pure function
    [render(ipAddress) -> bytes]; a template is taken here as literal text
    interleaved with uses of the one variable [_write_config_file] passes,
    [{{ ngap_ip_address }}]. *)
Inductive Segment :=
| Text (s : string)
| NgapIpAddress.

Fixpoint render (template : list Segment) (ngap_ip_address : string) : string :=
  match template with
  | [] => EmptyString
  | Text s :: rest => s +:+ render rest ngap_ip_address
  | NgapIpAddress :: rest => ngap_ip_address +:+ render rest ngap_ip_address
  end.

(** ** The world a handler runs in *)

(** [api_faults n m k] is the failure, if any, the API layer answers the
    [n]-th request with when that request is [m] on [k] (permission denied,
    a transport error, a concurrent writer): it is what the cluster does
    beyond its stored objects.  [api_requests] counts the requests served. *)
Record World := {
  model_name : string;
  app_name : string;
  config : gmap string string;
  template : list Segment;
  can_connect : bool;
  files : gmap string string;
  nads : gmap string NetworkAttachmentDefinition;
  statefulsets : gmap string StatefulSet;
  api_faults : nat → Method → Kind → option exn;
  api_requests : nat;
  unit_status : Status;
}.

Definition set_files (f : gmap string string) (w : World) : World :=
  {| model_name := model_name w; app_name := app_name w; config := config w;
     template := template w; can_connect := can_connect w; files := f;
     nads := nads w; statefulsets := statefulsets w;
     api_faults := api_faults w; api_requests := api_requests w;
     unit_status := unit_status w |}.

Definition set_nads (n : gmap string NetworkAttachmentDefinition) (w : World) : World :=
  {| model_name := model_name w; app_name := app_name w; config := config w;
     template := template w; can_connect := can_connect w; files := files w;
     nads := n; statefulsets := statefulsets w;
     api_faults := api_faults w; api_requests := api_requests w;
     unit_status := unit_status w |}.

Definition set_statefulsets (s : gmap string StatefulSet) (w : World) : World :=
  {| model_name := model_name w; app_name := app_name w; config := config w;
     template := template w; can_connect := can_connect w; files := files w;
     nads := nads w; statefulsets := s;
     api_faults := api_faults w; api_requests := api_requests w;
     unit_status := unit_status w |}.

Definition set_unit_status (s : Status) (w : World) : World :=
  {| model_name := model_name w; app_name := app_name w; config := config w;
     template := template w; can_connect := can_connect w; files := files w;
     nads := nads w; statefulsets := statefulsets w;
     api_faults := api_faults w; api_requests := api_requests w;
     unit_status := s |}.

Definition tick (w : World) : World :=
  {| model_name := model_name w; app_name := app_name w; config := config w;
     template := template w; can_connect := can_connect w; files := files w;
     nads := nads w; statefulsets := statefulsets w;
     api_faults := api_faults w; api_requests := S (api_requests w);
     unit_status := unit_status w |}.

(** ** Handlers as computations: state, exceptions and a log of calls *)

Inductive result (A : Type) :=
| Ok (a : A)
| Raise (e : exn).
Arguments Ok {A} a.
Arguments Raise {A} e.

Record Run (A : Type) := MkRun {
  outcome : result A;
  final : World;
  trace : list Call;
}.
Arguments MkRun {A} outcome final trace.
Arguments outcome {A} r.
Arguments final {A} r.
Arguments trace {A} r.

Definition M (A : Type) : Type := World → Run A.

Definition ret {A} (a : A) : M A := λ w, MkRun (Ok a) w [].

Definition raise {A} (e : exn) : M A := λ w, MkRun (Raise e) w [].

(** Sequencing: an exception ends the computation where it was raised; the
    state and the calls up to there stay. *)
Definition bind {A B} (m : M A) (k : A → M B) : M B :=
  λ w,
    match m w with
    | MkRun (Ok a) w1 t1 =>
        match k a w1 with
        | MkRun o w2 t2 => MkRun o w2 (t1 ++ t2)
        end
    | MkRun (Raise e) w1 t1 => MkRun (Raise e) w1 t1
    end.

(** [try: body / except ApiError as e: handler(e.status.reason)]: only an
    [ApiError] is caught, any other exception goes on. *)
Definition try_except_ApiError {A} (body : M A) (handler : string → M A) : M A :=
  λ w,
    match body w with
    | MkRun (Raise (ApiError reason)) w1 t1 =>
        match handler reason w1 with
        | MkRun o w2 t2 => MkRun o w2 (t1 ++ t2)
        end
    | r => r
    end.

(** stdpp's monad notations ([x ← m; k] and [m;; k]) read handlers the way
    the Python reads. *)
#[global] Instance M_ret : MRet M := @ret.
#[global] Instance M_bind : MBind M := λ A B k m, bind m k.

Definition call (c : Call) : M unit := λ w, MkRun (Ok tt) w [c].
Definition get_world : M World := λ w, MkRun (Ok w) w [].
Definition modify (f : World → World) : M unit := λ w, MkRun (Ok tt) (f w) [].

(** ** The collaborators *)

(** *** The workload container *)

Definition container_can_connect : M bool :=
  w ← get_world;
  call (ContainerCanConnect (can_connect w));;
  mret (can_connect w).

Definition container_push (path source : string) : M unit :=
  call (ContainerPush path source);;
  modify (λ w, set_files (<[path := source]> (files w)) w).

Definition container_exists (path : string) : M bool :=
  w ← get_world;
  let answer := bool_decide (is_Some (files w !! path)) in
  call (ContainerExists path answer);;
  mret answer.

Definition container_add_layer (label : string) (layer : Layer) (combine : bool) : M unit :=
  call (ContainerAddLayer label layer combine).

Definition container_replan : M unit := call ContainerReplan.

(** *** The event *)

Definition event_defer : M unit := call EventDefer.

Definition set_status (s : Status) : M unit := modify (set_unit_status s).

(** *** The cluster API *)

(** Modelled from the spec: lightkube's [Client] is an external library,
    and the cluster behind it is not code of the charm.  The verbs follow
    the contract the spec gives for the cluster client:
    [get -> object | NotFound], [create -> object | AlreadyExists],
    [patch -> object] (a merge patch), [delete -> () | NotFound].  Objects
    are those of the model's namespace, keyed by name.  Every request is
    first offered to [api_faults]; a served request is answered from the
    stored objects. *)
Definition api_request {A} (m : Method) (k : Kind)
    (log : option exn → Call) (serve : World → result A * World) : M A :=
  λ w,
    let w' := tick w in
    match api_faults w (api_requests w) m k with
    | Some e => MkRun (Raise e) w' [log (Some e)]
    | None =>
        match serve w' with
        | (Ok a, w'') => MkRun (Ok a) w'' [log None]
        | (Raise e, w'') => MkRun (Raise e) w'' [log (Some e)]
        end
    end.

Definition client_get_nad (name namespace : string) : M NetworkAttachmentDefinition :=
  api_request Get NetworkAttachmentDefinitionKind
    (ClientGet NetworkAttachmentDefinitionKind name namespace)
    (λ w, match nads w !! name with
          | Some o => (Ok o, w)
          | None => (Raise (ApiError "NotFound"), w)
          end).

Definition client_get_statefulset (name namespace : string) : M StatefulSet :=
  api_request Get StatefulSetKind
    (ClientGet StatefulSetKind name namespace)
    (λ w, match statefulsets w !! name with
          | Some o => (Ok o, w)
          | None => (Raise (ApiError "NotFound"), w)
          end).

(** The name a created object is stored under is the one in its metadata. *)
Definition client_create_nad (obj : NetworkAttachmentDefinition) (namespace : string) : M unit :=
  api_request Create NetworkAttachmentDefinitionKind
    (ClientCreate obj namespace)
    (λ w, match meta_name (nad_metadata obj) with
          | None => (Raise (ApiError "Invalid"), w)
          | Some name =>
              match nads w !! name with
              | Some _ => (Raise (ApiError "AlreadyExists"), w)
              | None => (Ok tt, set_nads (<[name := obj]> (nads w)) w)
              end
          end).

Definition client_delete_nad (name namespace : string) : M unit :=
  api_request Delete NetworkAttachmentDefinitionKind
    (ClientDelete NetworkAttachmentDefinitionKind name namespace)
    (λ w, match nads w !! name with
          | Some _ => (Ok tt, set_nads (delete name (nads w)) w)
          | None => (Raise (ApiError "NotFound"), w)
          end).

(** A merge patch: what the patch gives replaces what is stored, key by key
    inside the annotations; what the patch leaves out ([None]) stays. *)
Definition merge_meta (stored patch : ObjectMeta) : ObjectMeta :=
  {| meta_name := match meta_name patch with
                  | Some n => Some n
                  | None => meta_name stored
                  end;
     meta_annotations :=
       match meta_annotations patch with
       | Some p => Some (p ∪ default ∅ (meta_annotations stored))
       | None => meta_annotations stored
       end |}.

Definition merge_statefulset (stored patch : StatefulSet) : StatefulSet :=
  {| sts_metadata := merge_meta (sts_metadata stored) (sts_metadata patch);
     sts_spec :=
       {| spec_template :=
            {| template_metadata :=
                 match template_metadata (spec_template (sts_spec patch)) with
                 | Some p =>
                     match template_metadata (spec_template (sts_spec stored)) with
                     | Some s => Some (merge_meta s p)
                     | None => Some p
                     end
                 | None => template_metadata (spec_template (sts_spec stored))
                 end |} |} |}.

Definition client_patch_statefulset (name : string) (obj : StatefulSet) (namespace : string)
    : M unit :=
  api_request Patch StatefulSetKind
    (ClientPatch StatefulSetKind name obj namespace)
    (λ w, match statefulsets w !! name with
          | Some stored =>
              (Ok tt,
               set_statefulsets (<[name := merge_statefulset stored obj]> (statefulsets w)) w)
          | None => (Raise (ApiError "NotFound"), w)
          end).

(** ** The charm ([Free5GcAMFOperatorCharm]) *)

(** [self._container_name = self._service_name = "free5gc-amf"]. *)
Definition _container_name : string := "free5gc-amf".
Definition _service_name : string := "free5gc-amf".

(** [self.model.config[key]]: a missing key is a [KeyError]. *)
Definition model_config (key : string) : M string :=
  w ← get_world;
  match config w !! key with
  | Some v => mret v
  | None => raise (KeyError key)
  end.

Definition _config_ngap_cidr : M string := model_config "ngap-ip".
Definition _config_ngap_gateway : M string := model_config "ngap-gateway".
Definition _config_interface : M string := model_config "interface".

(** The property returns [True] inside the [try], [False] inside the
    handler when the reason is [NotFound]; a handler that ends without
    returning falls to the statements after the [try], which return [False]
    too.  [Some b] is a [return b] taken, [None] the fall-through. *)
Definition _network_attachment_definition_created : M bool :=
  w ← get_world;
  returned ← try_except_ApiError
    (client_get_nad NETWORK_ATTACHMENT_DEFINITION_NAME (model_name w);;
     mret (Some true))
    (λ reason,
       if String.eqb reason "NotFound" then mret (Some false) else mret None);
  match returned with
  | Some b => mret b
  | None => mret false
  end.

(** [statefulset.spec.template.metadata.annotations]: reading [.annotations]
    off a [None] metadata is an [AttributeError]. *)
Definition template_annotations (statefulset : StatefulSet)
    : M (option (gmap string string)) :=
  match template_metadata (spec_template (sts_spec statefulset)) with
  | Some metadata => mret (meta_annotations metadata)
  | None => raise AttributeError
  end.

(** ["k8s.v1.cni.cncf.io/networks" in current_annotation]: [in] on [None]
    is a [TypeError]. *)
Definition _annotation_added_to_statefulset : M bool :=
  w ← get_world;
  statefulset ← client_get_statefulset (app_name w) (model_name w);
  current_annotation ← template_annotations statefulset;
  match current_annotation with
  | Some annotations => mret (bool_decide (is_Some (annotations !! networks_annotation)))
  | None => raise TypeError
  end.

Definition nad_spec_json (interface gateway : string) : Json.value :=
  Json.JObject
    [ ("cniVersion", Json.JString "0.3.1");
      ("plugins",
       Json.JArray
         [ Json.JObject
             [ ("type", Json.JString "macvlan");
               ("capabilities", Json.JObject [("ips", Json.JBool true)]);
               ("master", Json.JString interface);
               ("mode", Json.JString "bridge");
               ("ipam",
                Json.JObject
                  [ ("type", Json.JString "static");
                    ("routes",
                     Json.JArray
                       [ Json.JObject
                           [ ("dst", Json.JString "0.0.0.0/0");
                             ("gw", Json.JString gateway) ] ]) ]) ];
           Json.JObject
             [ ("capabilities", Json.JObject [("mac", Json.JBool true)]);
               ("type", Json.JString "tuning") ] ]) ].

Definition _create_network_attachement_definition : M unit :=
  w ← get_world;
  interface ← _config_interface;
  gateway ← _config_ngap_gateway;
  let nad_spec := nad_spec_json interface gateway in
  let nad :=
    {| nad_metadata :=
         {| meta_name := Some NETWORK_ATTACHMENT_DEFINITION_NAME;
            meta_annotations := None |};
       nad_spec := {[ "config" := Json.dumps nad_spec ]} |} in
  client_create_nad nad (model_name w).

Definition _delete_network_attachement_definition : M unit :=
  w ← get_world;
  client_delete_nad NETWORK_ATTACHMENT_DEFINITION_NAME (model_name w).

Definition multus_annotation_json (cidr gateway : string) : Json.value :=
  Json.JArray
    [ Json.JObject
        [ ("name", Json.JString NETWORK_ATTACHMENT_DEFINITION_NAME);
          ("interface", Json.JString "n2");
          ("ips", Json.JString cidr);
          ("gateway", Json.JString gateway) ] ].

(** [current_annotation[key] = value] on the annotations of the fetched
    object, which the object then carries into the patch. *)
Definition set_template_annotations (annotations : gmap string string)
    (statefulset : StatefulSet) : StatefulSet :=
  {| sts_metadata := sts_metadata statefulset;
     sts_spec :=
       {| spec_template :=
            {| template_metadata :=
                 match template_metadata (spec_template (sts_spec statefulset)) with
                 | Some metadata =>
                     Some {| meta_name := meta_name metadata;
                             meta_annotations := Some annotations |}
                 | None => None
                 end |} |} |}.

Definition _add_statefulset_pod_network_annotation : M unit :=
  w ← get_world;
  cidr ← _config_ngap_cidr;
  gateway ← _config_ngap_gateway;
  let multus_annotation := multus_annotation_json cidr gateway in
  statefulset ← client_get_statefulset (app_name w) (model_name w);
  current_annotation ← template_annotations statefulset;
  match current_annotation with
  | None => raise TypeError
  | Some annotations =>
      let statefulset' :=
        set_template_annotations
          (<[networks_annotation := Json.dumps multus_annotation]> annotations)
          statefulset in
      client_patch_statefulset (app_name w) statefulset' (model_name w)
  end.

Definition _write_config_file : M unit :=
  w ← get_world;
  cidr ← _config_ngap_cidr;
  let content := render (template w) (Py.split_head "/" cidr) in
  container_push config_file_path content.

Definition _config_file_is_written : M bool :=
  present ← container_exists config_file_path;
  if negb present then mret false else mret true.

Definition _environment_variables : gmap string string :=
  {[ "GIN_MODE" := "release" ]}.

Definition _pebble_layer : Layer :=
  {| summary := "free5gc-amf layer";
     description := "pebble config layer for free5gc-amf";
     services :=
       {[ "free5gc-amf" :=
            {| override := "replace";
               startup := "enabled";
               command := "./amf -c " +:+ BASE_CONFIG_PATH +:+ "/" +:+ CONFIG_FILE_NAME;
               environment := _environment_variables |} ]} |}.

(** *** The three handlers *)

Definition _on_config_changed : M unit :=
  connected ← container_can_connect;
  if negb connected then
    set_status (WaitingStatus "Waiting for container to be ready");;
    event_defer
  else
    _write_config_file;;
    created ← _network_attachment_definition_created;
    (if negb created then _create_network_attachement_definition else mret tt);;
    added ← _annotation_added_to_statefulset;
    if negb added then _add_statefulset_pod_network_annotation else mret tt.

Definition _on_remove : M unit :=
  _delete_network_attachement_definition.

Definition _on_free5gc_amf_pebble_ready : M unit :=
  connected ← container_can_connect;
  if negb connected then
    set_status (WaitingStatus "Waiting for container to be ready");;
    event_defer
  else
    written ← _config_file_is_written;
    if negb written then
      set_status (WaitingStatus "Waiting for config file to be written");;
      event_defer
    else
      container_add_layer "free5gc-amf" _pebble_layer true;;
      container_replan;;
      set_status ActiveStatus.

(** ** Worlds used as concrete inputs *)

Definition no_faults : nat → Method → Kind → option exn := λ _ _ _, None.

(** Fail the requests [m] on [k] with [e], serve the rest. *)
Definition fault_on (m : Method) (k : Kind) (e : exn)
    : nat → Method → Kind → option exn :=
  λ _ m' k',
    match m, m', k, k' with
    | Get, Get, NetworkAttachmentDefinitionKind, NetworkAttachmentDefinitionKind
    | Get, Get, StatefulSetKind, StatefulSetKind
    | Create, Create, NetworkAttachmentDefinitionKind, NetworkAttachmentDefinitionKind
    | Delete, Delete, NetworkAttachmentDefinitionKind, NetworkAttachmentDefinitionKind
    | Patch, Patch, StatefulSetKind, StatefulSetKind => Some e
    | _, _, _, _ => None
    end.

Definition sample_template : list Segment :=
  [ Text "ngapIpList: ["; NgapIpAddress; Text "]" ].

Definition sample_config : gmap string string :=
  {[ "ngap-ip" := "10.0.0.5/24";
     "ngap-gateway" := "10.0.0.1";
     "interface" := "eth1" ]}.

Definition statefulset_with (annotations : option (gmap string string)) : StatefulSet :=
  {| sts_metadata := {| meta_name := Some "free5gc-amf"; meta_annotations := None |};
     sts_spec :=
       {| spec_template :=
            {| template_metadata :=
                 Some {| meta_name := None; meta_annotations := annotations |} |} |} |}.

(** Scenario A: connection ready, attachment absent, annotation absent. *)
Definition world_A : World :=
  {| model_name := "core";
     app_name := "free5gc-amf";
     config := sample_config;
     template := sample_template;
     can_connect := true;
     files := ∅;
     nads := ∅;
     statefulsets := {[ "free5gc-amf" := statefulset_with (Some ∅) ]};
     api_faults := no_faults;
     api_requests := 0;
     unit_status := MaintenanceStatus EmptyString |}.

Definition set_can_connect (b : bool) (w : World) : World :=
  {| model_name := model_name w; app_name := app_name w; config := config w;
     template := template w; can_connect := b; files := files w;
     nads := nads w; statefulsets := statefulsets w;
     api_faults := api_faults w; api_requests := api_requests w;
     unit_status := unit_status w |}.

Definition set_api_faults (f : nat → Method → Kind → option exn) (w : World) : World :=
  {| model_name := model_name w; app_name := app_name w; config := config w;
     template := template w; can_connect := can_connect w; files := files w;
     nads := nads w; statefulsets := statefulsets w;
     api_faults := f; api_requests := api_requests w;
     unit_status := unit_status w |}.

(** Scenario C: the container cannot be reached. *)
Definition world_unreachable : World := set_can_connect false world_A.

(** The existence get is refused (permission denied). *)
Definition world_forbidden : World :=
  set_api_faults
    (fault_on Get NetworkAttachmentDefinitionKind (ApiError "Forbidden")) world_A.

(** The existence get finds nothing, the create that follows loses to a
    concurrent creator. *)
Definition world_create_conflict : World :=
  set_api_faults
    (fault_on Create NetworkAttachmentDefinitionKind (ApiError "AlreadyExists")) world_A.

(** The pod template carries metadata without an annotations mapping. *)
Definition world_no_annotations : World :=
  set_statefulsets {[ "free5gc-amf" := statefulset_with None ]} world_A.

(** ** Reading a trace *)

Definition pushes (t : list Call) : list (string * string) :=
  omap (λ c, match c with ContainerPush path source => Some (path, source) | _ => None end) t.

Definition creates (t : list Call) : list NetworkAttachmentDefinition :=
  omap (λ c, match c with ClientCreate obj _ _ => Some obj | _ => None end) t.

Definition patches (t : list Call) : list StatefulSet :=
  omap (λ c, match c with ClientPatch _ _ obj _ _ => Some obj | _ => None end) t.

Definition is_cluster_mutation (c : Call) : bool :=
  match c with
  | ClientCreate _ _ _ | ClientDelete _ _ _ _ | ClientPatch _ _ _ _ _ => true
  | _ => false
  end.

Definition cluster_mutations (t : list Call) : list Call :=
  List.filter is_cluster_mutation t.

Definition is_supervisor_call (c : Call) : bool :=
  match c with
  | ContainerAddLayer _ _ _ | ContainerReplan => true
  | _ => false
  end.

Definition supervisor_calls (t : list Call) : list Call :=
  List.filter is_supervisor_call t.

(** The handler asked to be run again. *)
Definition deferred {A} (r : Run A) : Prop := EventDefer ∈ trace r.

(** The annotations a statefulset object carries on its pod template. *)
Definition pod_annotations (statefulset : StatefulSet) : option (gmap string string) :=
  template_metadata (spec_template (sts_spec statefulset)) ≫= meta_annotations.

(** The value of the networks annotation on the pod template, if any. *)
Definition pod_networks (statefulset : StatefulSet) : option string :=
  match pod_annotations statefulset with
  | Some annotations => annotations !! networks_annotation
  | None => None
  end.

(** A call that shows the attachment present: the existence get answered
    with the object, or a create of it went through. *)
Definition shows_attachment (c : Call) : bool :=
  match c with
  | ClientGet NetworkAttachmentDefinitionKind name _ None =>
      String.eqb name NETWORK_ATTACHMENT_DEFINITION_NAME
  | ClientCreate obj _ None =>
      bool_decide (meta_name (nad_metadata obj) = Some NETWORK_ATTACHMENT_DEFINITION_NAME)
  | _ => false
  end.

(** Every patch in [t] comes after a call that shows the attachment
    ([seen]: one came before [t]). *)
Fixpoint patches_guarded (seen : bool) (t : list Call) : bool :=
  match t with
  | [] => true
  | c :: t' =>
      match c with
      | ClientPatch _ _ _ _ _ => seen && patches_guarded seen t'
      | _ => patches_guarded (seen || shows_attachment c) t'
      end
  end.

(** A call names what it works on by the module's constants: the config
    file path, the service and its layer, the attachment name (also inside
    the annotation a patch writes). *)
Definition fixed_names (c : Call) : Prop :=
  match c with
  | ContainerPush path _ | ContainerExists path _ => path = config_file_path
  | ContainerAddLayer label layer _ => label = _service_name ∧ layer = _pebble_layer
  | ClientGet NetworkAttachmentDefinitionKind name _ _
  | ClientDelete NetworkAttachmentDefinitionKind name _ _ =>
      name = NETWORK_ATTACHMENT_DEFINITION_NAME
  | ClientCreate obj _ _ =>
      meta_name (nad_metadata obj) = Some NETWORK_ATTACHMENT_DEFINITION_NAME
  | ClientPatch _ _ obj _ _ =>
      ∃ cidr gateway,
        pod_networks obj =
        Some (Json.dumps
                (Json.JArray
                   [ Json.JObject
                       [ ("name", Json.JString NETWORK_ATTACHMENT_DEFINITION_NAME);
                         ("interface", Json.JString "n2");
                         ("ips", Json.JString cidr);
                         ("gateway", Json.JString gateway) ] ]))
  | _ => True
  end.

(** ** Symbolic execution of a handler *)

Ltac run :=
  cbv beta iota zeta delta
   [_on_config_changed _on_remove _on_free5gc_amf_pebble_ready
    _write_config_file _network_attachment_definition_created
    _annotation_added_to_statefulset _create_network_attachement_definition
    _delete_network_attachement_definition _add_statefulset_pod_network_annotation
    _config_file_is_written _config_ngap_cidr _config_ngap_gateway _config_interface
    model_config template_annotations
    container_can_connect container_push container_exists container_add_layer
    container_replan event_defer set_status
    client_get_nad client_get_statefulset client_create_nad client_delete_nad
    client_patch_statefulset api_request try_except_ApiError
    call get_world modify raise
    mbind M_bind bind mret M_ret ret
    outcome final trace deferred
    model_name app_name config template can_connect files nads statefulsets
    api_faults api_requests unit_status
    set_files set_nads set_statefulsets set_unit_status tick
    meta_name meta_annotations nad_metadata nad_spec
    negb app] in *.

(** Take the innermost scrutinee the goal is stuck on: use a hypothesis
    that fixes it, or split on it. *)
Ltac step :=
  match goal with
  | H : ?x = _ |- context [match ?x with _ => _ end] => rewrite H
  | |- context [match String.eqb ?a ?b with _ => _ end] =>
      destruct (String.eqb_spec a b); [|try congruence]
  | |- context [match ?x with _ => _ end] =>
      lazymatch x with
      | context [match _ with _ => _ end] => fail
      | _ => destruct x eqn:?
      end
  end.

Ltac exec := run; repeat (step; run).

Ltac open_world w := destruct w; run; simplify_eq.

(** Turn a [bool_decide] equation into the proposition it decides. *)
Ltac absurd_bool_decide :=
  match goal with
  | H : bool_decide _ = true |- _ => apply bool_decide_eq_true in H
  | H : bool_decide _ = false |- _ => apply bool_decide_eq_false in H
  end.

Definition is_patch (c : Call) : bool :=
  match c with
  | ClientPatch _ _ _ _ _ => true
  | _ => false
  end.

Definition is_client_call (c : Call) : bool :=
  match c with
  | ClientGet _ _ _ _ | ClientCreate _ _ _ | ClientDelete _ _ _ _
  | ClientPatch _ _ _ _ _ => true
  | _ => false
  end.

(** Characters [json.dumps] prints as they are: printable ASCII other than
    the double quote and the backslash. *)
Definition plain_char (c : ascii) : bool :=
  let n := N_of_ascii c in
  (32 <=? n)%N && (n <=? 126)%N && negb (Ascii.eqb c Json.dq)
  && negb (Ascii.eqb c Json.backslash).

Fixpoint plain (s : string) : bool :=
  match s with
  | EmptyString => true
  | String c s' => plain_char c && plain s'
  end.

(** More worlds: configurations with keys missing, a cluster without the
    statefulset, a pod template without metadata, and the world scenario A
    ends in (scenario B starts from it). *)
Definition set_config (c : gmap string string) (w : World) : World :=
  {| model_name := model_name w; app_name := app_name w; config := c;
     template := template w; can_connect := can_connect w; files := files w;
     nads := nads w; statefulsets := statefulsets w;
     api_faults := api_faults w; api_requests := api_requests w;
     unit_status := unit_status w |}.

Definition world_no_config : World := set_config ∅ world_A.

Definition world_no_interface : World :=
  set_config {[ "ngap-ip" := "10.0.0.5/24" ]} world_A.

Definition world_no_statefulset : World := set_statefulsets ∅ world_A.

Definition world_no_metadata : World :=
  set_statefulsets
    {[ "free5gc-amf" :=
         {| sts_metadata := {| meta_name := Some "free5gc-amf"; meta_annotations := None |};
            sts_spec := {| spec_template := {| template_metadata := None |} |} |} ]}
    world_A.

Definition world_B : World := final (_on_config_changed world_A).

(** * Properties *)

(** ** Strings *)

Lemma append_assoc (a b c : string) : (a +:+ b) +:+ c = a +:+ b +:+ c.
Proof.
  induction a as [|x a IH]; [reflexivity|].
  change (String x ((a +:+ b) +:+ c) = String x (a +:+ b +:+ c)).
  by rewrite IH.
Qed.

Lemma prefix_sound (a b : string) :
  String.prefix a b = true → ∃ rest, b = a +:+ rest.
Proof.
  revert b. induction a as [|x a IH]; intros b H.
  - by exists b.
  - destruct b as [|y b]; [discriminate|]. cbn in H.
    destruct (Ascii.ascii_dec x y) as [->|]; [|discriminate].
    destruct (IH b H) as [rest ->]. by exists rest.
Qed.

Lemma contains_sound (needle haystack : string) :
  Py.contains needle haystack = true → Py.substring needle haystack.
Proof.
  induction haystack as [|c h IH]; intros H; cbn [Py.contains] in H.
  - apply orb_true_iff in H as [H|H]; [|discriminate].
    destruct (prefix_sound _ _ H) as [rest ->]. by exists EmptyString, rest.
  - apply orb_true_iff in H as [H|H].
    + destruct (prefix_sound _ _ H) as [rest ->]. by exists EmptyString, rest.
    + destruct (IH H) as (before & after & ->). by exists (String c before), after.
Qed.

(** A template that uses the variable renders to a text holding its
    value. *)
Lemma render_mentions (tpl : list Segment) (ip : string) :
  NgapIpAddress ∈ tpl → Py.substring ip (render tpl ip).
Proof.
  induction tpl as [|seg tpl IH]; intros Hin.
  - by apply elem_of_nil in Hin.
  - destruct seg as [s|].
    + apply elem_of_cons in Hin as [Hin|Hin]; [discriminate|].
      destruct (IH Hin) as (before & after & Hr).
      exists (s +:+ before), after. cbn [render]. rewrite Hr.
      symmetry. apply append_assoc.
    + by exists EmptyString, (render tpl ip).
Qed.

(** ** The paths of [_on_free5gc_amf_pebble_ready] and [_on_remove] *)

Lemma pebble_ready_unreachable (w : World) :
  can_connect w = false →
  _on_free5gc_amf_pebble_ready w =
  MkRun (Ok tt)
    (set_unit_status (WaitingStatus "Waiting for container to be ready") w)
    [ContainerCanConnect false; EventDefer].
Proof. intros H. open_world w. by exec. Qed.

Lemma pebble_ready_no_file (w : World) :
  can_connect w = true →
  files w !! config_file_path = None →
  _on_free5gc_amf_pebble_ready w =
  MkRun (Ok tt)
    (set_unit_status (WaitingStatus "Waiting for config file to be written") w)
    [ContainerCanConnect true; ContainerExists config_file_path false; EventDefer].
Proof.
  intros Hc Hf. open_world w. run. rewrite Hf.
  rewrite bool_decide_eq_false_2; [reflexivity | by intros [? ?]].
Qed.

Lemma pebble_ready_starts (w : World) :
  can_connect w = true →
  is_Some (files w !! config_file_path) →
  _on_free5gc_amf_pebble_ready w =
  MkRun (Ok tt) (set_unit_status ActiveStatus w)
    [ContainerCanConnect true; ContainerExists config_file_path true;
     ContainerAddLayer "free5gc-amf" _pebble_layer true; ContainerReplan].
Proof.
  intros Hc Hf. open_world w. run.
  rewrite bool_decide_eq_true_2; [reflexivity | done].
Qed.

(** The delete is issued whatever the world; [_on_remove] ends the way the
    delete does. *)
Lemma remove_run (w : World) :
  ∃ err w',
    _on_remove w =
    MkRun (match err with None => Ok tt | Some e => Raise e end) w'
      [ClientDelete NetworkAttachmentDefinitionKind NETWORK_ATTACHMENT_DEFINITION_NAME
         (model_name w) err] ∧
    err =
      match api_faults w (api_requests w) Delete NetworkAttachmentDefinitionKind with
      | Some e => Some e
      | None =>
          match nads w !! NETWORK_ATTACHMENT_DEFINITION_NAME with
          | Some _ => None
          | None => Some (ApiError "NotFound")
          end
      end.
Proof.
  open_world w. exec.
  - by eexists (Some _), _.
  - by eexists None, _.
  - by eexists (Some _), _.
Qed.

(** ** Deferral *)

(** C3.  When the container cannot be reached, [_on_config_changed] returns
    normally having asked for a deferral; it has pushed no file and issued
    no call on the cluster API, and only the unit status differs in the
    world it leaves. *)
Theorem config_changed_defers_when_unreachable (w : World) :
  can_connect w = false →
  let r := _on_config_changed w in
  outcome r = Ok tt ∧
  trace r = [ContainerCanConnect false; EventDefer] ∧
  deferred r ∧
  pushes (trace r) = [] ∧
  cluster_mutations (trace r) = [] ∧
  final r = set_unit_status (WaitingStatus "Waiting for container to be ready") w.
Proof.
  intros Hc r. subst r. open_world w. exec.
  repeat split; try reflexivity. set_solver.
Qed.

Lemma config_changed_defers_when_unreachable_witness :
  trace (_on_config_changed world_unreachable) = [ContainerCanConnect false; EventDefer].
Proof.
  apply (config_changed_defers_when_unreachable world_unreachable). reflexivity.
Defined.

(** C8.  [_on_free5gc_amf_pebble_ready] returns normally in every world.  It
    defers when the container cannot be reached or the config file is not
    in the container; a deferring run declares no layer, asks for no replan
    and leaves a waiting status.  With the container reachable and the file
    there it does not defer: it declares the layer, replans and sets the
    active status. *)
Theorem pebble_ready_preconditions (w : World) :
  let r := _on_free5gc_amf_pebble_ready w in
  outcome r = Ok tt ∧
  (can_connect w = false ∨ files w !! config_file_path = None →
   deferred r ∧ supervisor_calls (trace r) = [] ∧
   ∃ message, unit_status (final r) = WaitingStatus message) ∧
  (can_connect w = true ∧ is_Some (files w !! config_file_path) →
   ¬ deferred r ∧
   supervisor_calls (trace r) =
     [ContainerAddLayer "free5gc-amf" _pebble_layer true; ContainerReplan] ∧
   unit_status (final r) = ActiveStatus).
Proof.
  intros r. subst r.
  destruct (can_connect w) eqn:Hc.
  - destruct (files w !! config_file_path) as [content|] eqn:Hf.
    + rewrite pebble_ready_starts by eauto. unfold deferred. cbn.
      split; [done|]. split; [intros [?|?]; discriminate|].
      intros _. split; [|done]. intros Hd.
      repeat (apply elem_of_cons in Hd as [Hd|Hd]; [discriminate|]).
      by apply elem_of_nil in Hd.
    + rewrite pebble_ready_no_file by done. unfold deferred. cbn.
      split; [done|]. split; [|by intros [_ [? ?]]].
      intros _. split; [set_solver|eauto].
  - rewrite pebble_ready_unreachable by done. unfold deferred. cbn.
    split; [done|]. split; [|by intros [? _]].
    intros _. split; [set_solver|eauto].
Qed.

(** ** Removal *)

(** C4, as the code has it.  [_on_remove] issues exactly one call, the
    delete of the attachment under its fixed name, in every world.  It ends
    the way that delete ends: normally when the delete went through, with
    the delete's error otherwise.  In particular the [NotFound] the API
    answers for an attachment that is not there is raised to the caller. *)
Theorem remove_always_deletes (w : World) :
  let r := _on_remove w in
  ∃ err,
    trace r =
      [ClientDelete NetworkAttachmentDefinitionKind NETWORK_ATTACHMENT_DEFINITION_NAME
         (model_name w) err] ∧
    outcome r = match err with None => Ok tt | Some e => Raise e end ∧
    (api_faults w (api_requests w) Delete NetworkAttachmentDefinitionKind = None →
     nads w !! NETWORK_ATTACHMENT_DEFINITION_NAME = None →
     outcome r = Raise (ApiError "NotFound")) ∧
    (api_faults w (api_requests w) Delete NetworkAttachmentDefinitionKind = None →
     is_Some (nads w !! NETWORK_ATTACHMENT_DEFINITION_NAME) →
     outcome r = Ok tt).
Proof.
  intros r. subst r. destruct (remove_run w) as (err & w' & -> & Herr).
  exists err. cbn. split; [done|]. split; [done|]. split.
  - intros Hf Hn. rewrite Hf, Hn in Herr. by subst err.
  - intros Hf [nad Hn]. rewrite Hf, Hn in Herr. by subst err.
Qed.

(** C4, counterexample.  Removing when the attachment never existed: the
    delete is issued, the API answers [NotFound], and [_on_remove] raises
    it. *)
Lemma remove_absent_raises :
  trace (_on_remove world_A) =
    [ClientDelete NetworkAttachmentDefinitionKind NETWORK_ATTACHMENT_DEFINITION_NAME
       "core" (Some (ApiError "NotFound"))] ∧
  outcome (_on_remove world_A) = Raise (ApiError "NotFound").
Proof. split; reflexivity. Qed.

(** ** Fixed names *)

Lemma Forall_fixed_names_run {A} (r : Run A) (o : result A) (w : World) (t : list Call) :
  r = MkRun o w t → Forall fixed_names t → Forall fixed_names (trace r).
Proof. by intros ->. Qed.

(** C9.  The layer declares one service, [free5gc-amf], whose command is
    [./amf -c] followed by the config file path built from the two path
    constants, and whose environment is the single variable
    [GIN_MODE=release].  In every world, every call the three handlers issue
    names its target by the constants: pushes and existence checks use the
    config file path, the layer declared is [_pebble_layer], and every get,
    create and delete of the attachment, and the annotation a patch writes,
    use [NETWORK_ATTACHMENT_DEFINITION_NAME]. *)
Theorem fixed_names_everywhere :
  (∃ service,
     services _pebble_layer = {[ "free5gc-amf" := service ]} ∧
     command service = "./amf -c " +:+ config_file_path ∧
     command service = "./amf -c /free5gc/config/amfcfg.yaml" ∧
     environment service = {[ "GIN_MODE" := "release" ]} ∧
     size (environment service) = 1) ∧
  NETWORK_ATTACHMENT_DEFINITION_NAME = "n2network-amf" ∧
  ∀ w : World,
    Forall fixed_names (trace (_on_config_changed w)) ∧
    Forall fixed_names (trace (_on_remove w)) ∧
    Forall fixed_names (trace (_on_free5gc_amf_pebble_ready w)).
Proof.
  split; [|split; [reflexivity|]].
  - eexists. split; [reflexivity|]. cbn [command environment].
    repeat split; reflexivity.
  - intros w. split; [|split].
    + open_world w. exec.
      all: repeat apply Forall_cons_2; try apply Forall_nil_2.
      all: try exact I; try reflexivity.
      all: unfold fixed_names, pod_networks, pod_annotations, set_template_annotations;
        cbn [template_metadata spec_template sts_spec meta_annotations mbind option_bind];
        repeat match goal with
          | H : template_metadata _ = Some _ |- _ => rewrite H
          end;
        cbn [template_metadata spec_template sts_spec meta_annotations mbind option_bind];
        do 2 eexists; apply lookup_insert_eq.
    + destruct (remove_run w) as (err & w' & Hr & _).
      eapply Forall_fixed_names_run; [exact Hr|].
      by repeat constructor.
    + destruct (can_connect w) eqn:Hc.
      * destruct (files w !! config_file_path) as [content|] eqn:Hf.
        -- rewrite pebble_ready_starts by eauto. by repeat constructor.
        -- rewrite pebble_ready_no_file by done. by repeat constructor.
      * rewrite pebble_ready_unreachable by done. by repeat constructor.
Qed.

(** ** The cluster's merge of a patch *)

Lemma pod_annotations_merge (stored : StatefulSet) (md : ObjectMeta)
    (a a' : gmap string string) :
  template_metadata (spec_template (sts_spec stored)) = Some md →
  meta_annotations md = Some a →
  pod_annotations (merge_statefulset stored (set_template_annotations a' stored)) =
  Some (a' ∪ a).
Proof.
  intros Hmd Ha. unfold pod_annotations, merge_statefulset, set_template_annotations.
  cbn [template_metadata spec_template sts_spec]. rewrite Hmd.
  cbn [mbind option_bind merge_meta meta_annotations]. by rewrite Ha.
Qed.

(** ** Scenario A *)

(** C1.  Take the configuration [ngap-ip = 10.0.0.5/24],
    [ngap-gateway = 10.0.0.1], [interface = eth1], a reachable container, no
    attachment in the cluster, a statefulset whose pod template has an
    annotations mapping without the networks key, an API that serves every
    request, and a template that uses its variable.  Then one run of
    [_on_config_changed] returns normally and
    - pushes once, to the config file path, a text that holds [10.0.0.5];
    - creates once: the attachment, under its fixed name, with a config
      whose first plugin has [master = eth1], static IPAM and the single
      route [0.0.0.0/0] via [10.0.0.1];
    - patches once: the statefulset, with the annotations it had plus the
      networks key bound to one entry that names the attachment, with
      [ips = 10.0.0.5/24]; the cluster then holds that annotation. *)
Theorem scenario_A (w : World) (sts : StatefulSet) (md : ObjectMeta)
    (annotations : gmap string string) :
  config w !! "ngap-ip" = Some "10.0.0.5/24" →
  config w !! "ngap-gateway" = Some "10.0.0.1" →
  config w !! "interface" = Some "eth1" →
  can_connect w = true →
  nads w !! NETWORK_ATTACHMENT_DEFINITION_NAME = None →
  statefulsets w !! app_name w = Some sts →
  template_metadata (spec_template (sts_spec sts)) = Some md →
  meta_annotations md = Some annotations →
  annotations !! networks_annotation = None →
  (∀ n m k, api_faults w n m k = None) →
  NgapIpAddress ∈ template w →
  let r := _on_config_changed w in
  let entry :=
    Json.dumps
      (Json.JArray
         [ Json.JObject
             [ ("name", Json.JString "n2network-amf");
               ("interface", Json.JString "n2");
               ("ips", Json.JString "10.0.0.5/24");
               ("gateway", Json.JString "10.0.0.1") ] ]) in
  outcome r = Ok tt ∧
  (∃ content,
     pushes (trace r) = [(config_file_path, content)] ∧
     Py.substring "10.0.0.5" content ∧
     files (final r) !! config_file_path = Some content) ∧
  (∃ nad spec,
     creates (trace r) = [nad] ∧
     meta_name (nad_metadata nad) = Some "n2network-amf" ∧
     nad_spec nad = {[ "config" := Json.dumps spec ]} ∧
     Json.at_path [Json.Key "plugins"; Json.Index 0; Json.Key "master"] spec =
       Some (Json.JString "eth1") ∧
     Json.at_path
       [Json.Key "plugins"; Json.Index 0; Json.Key "ipam"; Json.Key "type"] spec =
       Some (Json.JString "static") ∧
     Json.at_path
       [Json.Key "plugins"; Json.Index 0; Json.Key "ipam"; Json.Key "routes"] spec =
       Some (Json.JArray
               [ Json.JObject
                   [ ("dst", Json.JString "0.0.0.0/0");
                     ("gw", Json.JString "10.0.0.1") ] ]) ∧
     nads (final r) !! NETWORK_ATTACHMENT_DEFINITION_NAME = Some nad) ∧
  (∃ obj stored,
     patches (trace r) = [obj] ∧
     pod_annotations obj = Some (<[networks_annotation := entry]> annotations) ∧
     statefulsets (final r) !! app_name w = Some stored ∧
     pod_networks stored = Some entry) ∧
  length (trace r) = 7.
Proof.
  intros Hip Hgw Hif Hc Hnad Hsts Hmd Ha Hkey Hf Htpl r entry. subst r.
  destruct md as [mname mann]. open_world w.
  run. repeat (first [rewrite Hf | step]; run).
  all: try (absurd_bool_decide; rewrite Hkey in *; by destruct Heqb).
  split; [reflexivity|]. split; [|split; [|split; [|reflexivity]]].
  - eexists. split; [reflexivity|]. split.
    + change (Py.split_head "/" "10.0.0.5/24") with "10.0.0.5".
      by apply render_mentions.
    + apply lookup_insert_eq.
  - do 2 eexists. split; [reflexivity|]. cbn [nad_metadata meta_name nad_spec].
    split; [reflexivity|]. split; [reflexivity|].
    split; [reflexivity|]. split; [reflexivity|]. split; [reflexivity|].
    apply lookup_insert_eq.
  - do 2 eexists. split; [reflexivity|]. split; [|split].
    + unfold pod_annotations, set_template_annotations.
      cbn [template_metadata spec_template sts_spec]. rewrite Hmd. reflexivity.
    + apply lookup_insert_eq.
    + unfold pod_networks.
      erewrite pod_annotations_merge by (exact Hmd || reflexivity).
      apply lookup_union_Some_l, lookup_insert_eq.
Qed.

Lemma scenario_A_witness :
  outcome (_on_config_changed world_A) = Ok tt ∧
  length (trace (_on_config_changed world_A)) = 7.
Proof.
  assert (NgapIpAddress ∈ template world_A) as Htpl.
  { apply list_elem_of_In. right. left. reflexivity. }
  pose proof (scenario_A world_A (statefulset_with (Some ∅))
                {| meta_name := None; meta_annotations := Some ∅ |} ∅
                eq_refl eq_refl eq_refl eq_refl eq_refl eq_refl eq_refl eq_refl
                eq_refl (λ _ _ _, eq_refl) Htpl) as H.
  split; apply H.
Defined.

(** What the two serialised values of scenario A read as. *)
Lemma scenario_A_texts :
  Py.contains
    (Json.quoted "master" +:+ ": " +:+ Json.quoted "eth1")
    (Json.dumps (nad_spec_json "eth1" "10.0.0.1")) = true ∧
  Py.contains
    (Json.quoted "routes" +:+ ": [{" +:+ Json.quoted "dst" +:+ ": "
       +:+ Json.quoted "0.0.0.0/0" +:+ ", " +:+ Json.quoted "gw" +:+ ": "
       +:+ Json.quoted "10.0.0.1" +:+ "}]")
    (Json.dumps (nad_spec_json "eth1" "10.0.0.1")) = true ∧
  Json.dumps (multus_annotation_json "10.0.0.5/24" "10.0.0.1") =
    "[{" +:+ Json.quoted "name" +:+ ": " +:+ Json.quoted "n2network-amf" +:+ ", "
      +:+ Json.quoted "interface" +:+ ": " +:+ Json.quoted "n2" +:+ ", "
      +:+ Json.quoted "ips" +:+ ": " +:+ Json.quoted "10.0.0.5/24" +:+ ", "
      +:+ Json.quoted "gateway" +:+ ": " +:+ Json.quoted "10.0.0.1" +:+ "}]".
Proof. repeat split; vm_compute; reflexivity. Qed.

(** ** Failures of the cluster API during [_on_config_changed] *)

(** C5, counterexample.  The existence get answers [NotFound], the create
    answers [AlreadyExists]: [_on_config_changed] raises that error, and the
    statefulset is neither read nor patched. *)
Lemma create_conflict_raises :
  outcome (_on_config_changed world_create_conflict) = Raise (ApiError "AlreadyExists") ∧
  length (creates (trace (_on_config_changed world_create_conflict))) = 1 ∧
  patches (trace (_on_config_changed world_create_conflict)) = [] ∧
  length (trace (_on_config_changed world_create_conflict)) = 4.
Proof. repeat split; vm_compute; reflexivity. Qed.

(** C5, as the code has it.  A create that fails, with [AlreadyExists] or
    any other error, ends the pass: [_on_config_changed] raises the create's
    error, the failed create is the last call of the pass, and no patch is
    issued.  The config file had been pushed before. *)
Theorem create_error_propagates (w : World) (obj : NetworkAttachmentDefinition)
    (namespace : string) (e : exn) :
  ClientCreate obj namespace (Some e) ∈ trace (_on_config_changed w) →
  let r := _on_config_changed w in
  outcome r = Raise e ∧
  last (trace r) = Some (ClientCreate obj namespace (Some e)) ∧
  patches (trace r) = [] ∧
  ∃ content, pushes (trace r) = [(config_file_path, content)].
Proof.
  intros H r. subst r. revert H. open_world w. exec.
  all: intros H; apply list_elem_of_In in H; cbn [In] in H.
  all: repeat match goal with
         | H : _ ∨ _ |- _ => destruct H as [H|H]
         | H : False |- _ => destruct H
         end.
  all: try discriminate.
  all: injection H as <- <- <-.
  all: repeat split; try reflexivity; by eexists.
Qed.

Lemma create_error_propagates_witness :
  outcome (_on_config_changed world_create_conflict) = Raise (ApiError "AlreadyExists").
Proof.
  eapply (create_error_propagates world_create_conflict _ "core").
  apply list_elem_of_In. do 3 right. left. reflexivity.
Defined.

(** C6, counterexample.  The existence get is refused with [Forbidden]:
    [_on_config_changed] does not raise; it goes on to create the attachment
    and to patch the statefulset, and returns normally. *)
Lemma forbidden_get_is_swallowed :
  outcome (_on_config_changed world_forbidden) = Ok tt ∧
  trace (_on_config_changed world_forbidden) !! 2 =
    Some (ClientGet NetworkAttachmentDefinitionKind NETWORK_ATTACHMENT_DEFINITION_NAME
            "core" (Some (ApiError "Forbidden"))) ∧
  length (creates (trace (_on_config_changed world_forbidden))) = 1 ∧
  length (patches (trace (_on_config_changed world_forbidden))) = 1.
Proof. repeat split; vm_compute; reflexivity. Qed.

(** C6, as the code has it.  When the API fails the existence get with [e]:
    - if [e] is an [ApiError], whatever its reason, the check returns
      [False], and a pass that got to the check with the interface and the
      gateway configured issues the create next;
    - if [e] is not an [ApiError], the check raises [e], and a pass that got
      to the check raises [e] with the failed get as its last call, having
      created and patched nothing. *)
Theorem existence_get_failure (w : World) (e : exn) :
  api_faults w (api_requests w) Get NetworkAttachmentDefinitionKind = Some e →
  let check := _network_attachment_definition_created w in
  let r := _on_config_changed w in
  let get :=
    ClientGet NetworkAttachmentDefinitionKind NETWORK_ATTACHMENT_DEFINITION_NAME
      (model_name w) (Some e) in
  trace check = [get] ∧
  match e with
  | ApiError _ =>
      outcome check = Ok false ∧
      (can_connect w = true →
       is_Some (config w !! "ngap-ip") →
       is_Some (config w !! "interface") →
       is_Some (config w !! "ngap-gateway") →
       ∃ content obj err rest,
         trace r =
           ContainerCanConnect true :: ContainerPush config_file_path content ::
           get :: ClientCreate obj (model_name w) err :: rest)
  | _ =>
      outcome check = Raise e ∧
      (can_connect w = true →
       is_Some (config w !! "ngap-ip") →
       ∃ content,
         trace r =
           [ContainerCanConnect true; ContainerPush config_file_path content; get] ∧
         outcome r = Raise e)
  end.
Proof.
  intros Hf check r get. subst check r get. open_world w.
  split; [by destruct e; exec|].
  destruct e; (split; [by exec|]).
  1: intros ? [cidr Hcidr] [interface Hif] [gateway Hgw]; simplify_eq; exec;
       by do 4 eexists.
  all: intros ? [cidr Hcidr]; simplify_eq; exec; by eexists.
Qed.

Lemma existence_get_failure_witness :
  outcome (_network_attachment_definition_created world_forbidden) = Ok false.
Proof.
  apply (existence_get_failure world_forbidden (ApiError "Forbidden")). reflexivity.
Defined.

(** ** Ordering *)

Lemma patches_guarded_sound (t : list Call) :
  ∀ (seen : bool) (pre : list Call) (c : Call) (post : list Call),
    patches_guarded seen t = true →
    t = (pre ++ c :: post)%list →
    is_patch c = true →
    seen = true ∨ ∃ c', c' ∈ pre ∧ shows_attachment c' = true.
Proof.
  induction t as [|x t IH]; intros seen pre c post Hg Heq Hc.
  - by destruct pre.
  - destruct pre as [|y pre]; cbn in Heq; injection Heq as -> ->.
    + destruct c; try discriminate. cbn in Hg.
      apply andb_true_iff in Hg as [-> _]. by left.
    + assert (patches_guarded (seen || shows_attachment y) (pre ++ c :: post)%list = true
              ∨ (seen = true ∧ patches_guarded seen (pre ++ c :: post)%list = true)) as Hg'.
      { destruct y; cbn [patches_guarded] in Hg; try (by left).
        apply andb_true_iff in Hg as [-> Hg]. by right. }
      destruct Hg' as [Hg'|[-> _]]; [|by left].
      destruct (IH _ pre c post Hg' eq_refl Hc) as [Hs|(c' & Hin & Hs)].
      * apply orb_true_iff in Hs as [->|Hs]; [by left|].
        right. exists y. split; [apply elem_of_cons; by left | done].
      * right. exists c'. split; [apply elem_of_cons; by right | done].
Qed.

Lemma config_changed_patches_guarded (w : World) :
  patches_guarded false (trace (_on_config_changed w)) = true ∧
  (patches (trace (_on_config_changed w)) ≠ [] →
   is_Some (nads (final (_on_config_changed w)) !! NETWORK_ATTACHMENT_DEFINITION_NAME)).
Proof.
  open_world w. exec.
  all: split; [reflexivity|]; intros Hp; try (by destruct Hp).
  all: first [ by eexists | rewrite lookup_insert_eq; by eexists ].
Qed.

(** C7.  Wherever a patch stands in the trace of an [_on_config_changed]
    run, a call before it showed the attachment present: the existence get
    answered with the object, or a create of the attachment went through.
    The cluster holds the attachment when such a run ends. *)
Theorem patch_only_after_attachment (w : World) (pre post : list Call) (c : Call) :
  trace (_on_config_changed w) = (pre ++ c :: post)%list →
  is_patch c = true →
  (∃ c', c' ∈ pre ∧ shows_attachment c' = true) ∧
  is_Some (nads (final (_on_config_changed w)) !! NETWORK_ATTACHMENT_DEFINITION_NAME).
Proof.
  intros Heq Hc. destruct (config_changed_patches_guarded w) as [Hg Hn]. split.
  - destruct (patches_guarded_sound _ _ _ _ _ Hg Heq Hc) as [?|?]; [discriminate|done].
  - apply Hn. rewrite Heq. unfold patches. rewrite omap_app.
    destruct c; try discriminate. cbn. by destruct (omap _ pre).
Qed.

Lemma patch_only_after_attachment_witness :
  ∃ c', c' ∈ take 6 (trace (_on_config_changed world_A)) ∧ shows_attachment c' = true.
Proof.
  eapply (patch_only_after_attachment world_A
            (take 6 (trace (_on_config_changed world_A)))
            (drop 7 (trace (_on_config_changed world_A)))
            (default EventDefer (trace (_on_config_changed world_A) !! 6))).
  - vm_compute. reflexivity.
  - vm_compute. reflexivity.
Defined.

(** ** A pod template without an annotations mapping *)

(** C10.  Let the statefulset's pod template carry metadata whose
    annotations are [None], with the container reachable and the gets of
    the statefulset served.  Then the annotation check raises [TypeError]
    instead of returning [False], and [_on_config_changed] raises: with
    [TypeError] from the check, or earlier with the statefulset never read.
    No patch is issued and the statefulsets of the cluster stay as they
    were.  In any world, the check returns [False] only when the pod
    template has an annotations mapping that lacks the networks key. *)
Theorem missing_annotations_mapping_raises (w : World) (sts : StatefulSet)
    (md : ObjectMeta) :
  can_connect w = true →
  statefulsets w !! app_name w = Some sts →
  template_metadata (spec_template (sts_spec sts)) = Some md →
  meta_annotations md = None →
  (∀ n, api_faults w n Get StatefulSetKind = None) →
  let r := _on_config_changed w in
  outcome (_annotation_added_to_statefulset w) = Raise TypeError ∧
  (outcome r = Raise TypeError ∨
   ∃ e, outcome r = Raise e ∧
        ClientGet StatefulSetKind (app_name w) (model_name w) None ∉ trace r) ∧
  patches (trace r) = [] ∧
  statefulsets (final r) = statefulsets w ∧
  ∀ w' : World,
    outcome (_annotation_added_to_statefulset w') = Ok false →
    ∃ sts' annotations,
      statefulsets w' !! app_name w' = Some sts' ∧
      pod_annotations sts' = Some annotations ∧
      annotations !! networks_annotation = None.
Proof.
  intros Hc Hsts Hmd Ha Hf r. subst r. destruct md as [mname mann].
  open_world w. split; [|split; [|split; [|split]]].
  - run. rewrite Hf. by exec.
  - run. repeat (first [rewrite Hf | step]; run).
    all: first [ by left | right; eexists; split; [reflexivity|] ].
    all: intros Hin; apply list_elem_of_In in Hin; cbn [In] in Hin.
    all: repeat match goal with
           | H : _ ∨ _ |- _ => destruct H as [H|H]
           | H : False |- _ => destruct H
           end; discriminate.
  - run. repeat (first [rewrite Hf | step]; run). all: reflexivity.
  - run. repeat (first [rewrite Hf | step]; run). all: reflexivity.
  - clear. intros w'. destruct w'. unfold pod_annotations. exec.
    all: intros Hout; try discriminate.
    injection Hout as Hout. apply bool_decide_eq_false in Hout.
    do 2 eexists. split; [reflexivity|].
    match goal with H : template_metadata _ = _ |- _ => rewrite H end.
    split; [reflexivity|]. by apply eq_None_not_Some.
Qed.

Lemma missing_annotations_mapping_raises_witness :
  outcome (_annotation_added_to_statefulset world_no_annotations) = Raise TypeError.
Proof.
  eapply (missing_annotations_mapping_raises world_no_annotations
            (statefulset_with None) {| meta_name := None; meta_annotations := None |}
            eq_refl eq_refl eq_refl eq_refl (λ _, eq_refl)).
Defined.

(** ** Idempotence *)

Lemma pod_networks_patched (stored : StatefulSet) (md : ObjectMeta)
    (a : gmap string string) (v : string) :
  template_metadata (spec_template (sts_spec stored)) = Some md →
  meta_annotations md = Some a →
  pod_networks
    (merge_statefulset stored
       (set_template_annotations (<[networks_annotation := v]> a) stored)) = Some v.
Proof.
  intros Hmd Ha. unfold pod_networks.
  erewrite pod_annotations_merge by eassumption.
  apply lookup_union_Some_l, lookup_insert_eq.
Qed.

Lemma pod_networks_present (stored : StatefulSet) (md : ObjectMeta)
    (a : gmap string string) :
  template_metadata (spec_template (sts_spec stored)) = Some md →
  meta_annotations md = Some a →
  bool_decide (is_Some (a !! networks_annotation)) = true →
  is_Some (pod_networks stored).
Proof.
  intros Hmd Ha Hb. unfold pod_networks, pod_annotations. rewrite Hmd. cbn.
  rewrite Ha. by apply bool_decide_eq_true in Hb.
Qed.

(** What a pass that returned normally, without deferring, leaves: the
    attachment and the annotation are in the cluster, and what the next pass
    reads first is as it was. *)
Lemma config_changed_converges (w : World) :
  can_connect w = true →
  outcome (_on_config_changed w) = Ok tt →
  let w1 := final (_on_config_changed w) in
  can_connect w1 = true ∧
  config w1 = config w ∧
  template w1 = template w ∧
  api_faults w1 = api_faults w ∧
  (∃ cidr,
     config w !! "ngap-ip" = Some cidr ∧
     pushes (trace (_on_config_changed w)) =
       [(config_file_path, render (template w) (Py.split_head "/" cidr))]) ∧
  is_Some (nads w1 !! NETWORK_ATTACHMENT_DEFINITION_NAME) ∧
  ∃ stored, statefulsets w1 !! app_name w1 = Some stored ∧ is_Some (pod_networks stored).
Proof.
  intros Hc. open_world w. exec.
  all: intros Hout; try discriminate.
  all: do 4 (split; [reflexivity|]).
  all: split; [by eauto|].
  all: split; [first [by eauto | rewrite lookup_insert_eq; by eauto]|].
  all: eexists; split; [first [eassumption | apply lookup_insert_eq]|].
  all: try (eapply pod_networks_present; [eassumption|reflexivity|assumption]).
  all: erewrite pod_networks_patched by (eassumption || reflexivity); by eauto.
Qed.

Lemma pod_networks_inv (stored : StatefulSet) :
  is_Some (pod_networks stored) →
  ∃ md a,
    template_metadata (spec_template (sts_spec stored)) = Some md ∧
    meta_annotations md = Some a ∧
    is_Some (a !! networks_annotation).
Proof.
  unfold pod_networks, pod_annotations. intros H.
  destruct (template_metadata (spec_template (sts_spec stored))) as [md|];
    [|by destruct H].
  cbn in H. destruct (meta_annotations md) as [a|] eqn:Ha; [|by destruct H].
  by exists md, a.
Qed.

(** A pass over a converged world (scenario B): the file is pushed, the two
    gets find what they look for, nothing is created or patched. *)
Lemma config_changed_converged (w : World) (cidr : string)
    (nad : NetworkAttachmentDefinition) (stored : StatefulSet) :
  can_connect w = true →
  config w !! "ngap-ip" = Some cidr →
  nads w !! NETWORK_ATTACHMENT_DEFINITION_NAME = Some nad →
  statefulsets w !! app_name w = Some stored →
  is_Some (pod_networks stored) →
  api_faults w (api_requests w) Get NetworkAttachmentDefinitionKind = None →
  let r := _on_config_changed w in
  let content := render (template w) (Py.split_head "/" cidr) in
  (∃ err,
     trace r =
       [ContainerCanConnect true;
        ContainerPush config_file_path content;
        ClientGet NetworkAttachmentDefinitionKind NETWORK_ATTACHMENT_DEFINITION_NAME
          (model_name w) None;
        ClientGet StatefulSetKind (app_name w) (model_name w) err] ∧
     err = api_faults w (S (api_requests w)) Get StatefulSetKind ∧
     outcome r = match err with None => Ok tt | Some e => Raise e end) ∧
  files (final r) = <[config_file_path := content]> (files w) ∧
  nads (final r) = nads w ∧
  statefulsets (final r) = statefulsets w.
Proof.
  intros Hc Hcidr Hnad Hsts Hnet Hf r content. subst r content.
  apply pod_networks_inv in Hnet as (md & a & Hmd & Ha & Hkey).
  destruct md as [mname mann]. open_world w. exec.
  all: try (absurd_bool_decide; contradiction).
  all: split; [|done].
  all: eexists; split; [reflexivity|]; split; [|reflexivity]; congruence.
Qed.

(** C2.  Let a first run of [_on_config_changed], with the container
    reachable, return normally, and let a second run start from the world
    the first one left (same configuration, nothing changed in between),
    with its existence get served.  The second run creates nothing and
    patches nothing: it issues no mutating call on the cluster, and the
    attachments and statefulsets of the cluster are after it what they were
    before it.  It does push the config file again, with the content the
    first run pushed, and it returns normally when its get of the
    statefulset is served. *)
Theorem config_changed_idempotent (w : World) :
  can_connect w = true →
  outcome (_on_config_changed w) = Ok tt →
  let r1 := _on_config_changed w in
  let r2 := _on_config_changed (final r1) in
  api_faults w (api_requests (final r1)) Get NetworkAttachmentDefinitionKind = None →
  creates (trace r2) = [] ∧
  patches (trace r2) = [] ∧
  cluster_mutations (trace r2) = [] ∧
  nads (final r2) = nads (final r1) ∧
  statefulsets (final r2) = statefulsets (final r1) ∧
  (∃ content,
     pushes (trace r1) = [(config_file_path, content)] ∧
     pushes (trace r2) = [(config_file_path, content)] ∧
     files (final r2) !! config_file_path = Some content) ∧
  (api_faults w (S (api_requests (final r1))) Get StatefulSetKind = None →
   outcome r2 = Ok tt).
Proof.
  intros Hc Hok r1 r2 Hf. subst r1 r2.
  destruct (config_changed_converges w Hc Hok)
    as (Hc1 & Hcfg & Htpl & Hfaults & (cidr & Hcidr & Hpush) & [nad Hnad] & stored & Hsts & Hnet).
  rewrite <- Hfaults in Hf. rewrite <- Hcfg in Hcidr.
  destruct (config_changed_converged _ cidr nad stored Hc1 Hcidr Hnad Hsts Hnet Hf)
    as ((err & Htrace & Herr & Hout) & Hfiles & Hnads & Hstss).
  rewrite Htrace, Hnads, Hstss, Hfiles, Hout, Hpush, Htpl.
  repeat split; try reflexivity.
  - eexists. split; [reflexivity|]. split; [reflexivity|]. apply lookup_insert_eq.
  - intros Hf2. rewrite <- Hfaults in Hf2. by rewrite Herr, Hf2.
Qed.

Lemma config_changed_idempotent_witness :
  creates (trace (_on_config_changed (final (_on_config_changed world_A)))) = [] ∧
  patches (trace (_on_config_changed (final (_on_config_changed world_A)))) = [].
Proof.
  pose proof (config_changed_idempotent world_A eq_refl eq_refl eq_refl) as H.
  split; apply H.
Defined.

(** * Further properties of the handlers *)

(** ** Missing configuration keys *)

(** X1.  With the container reachable and no [ngap-ip] in the
    configuration, [_on_config_changed] raises [KeyError] on that key right
    after the probe: nothing is pushed, the cluster is not asked anything,
    and the world is left as it was. *)
Theorem config_changed_missing_ngap_ip (w : World) :
  can_connect w = true →
  config w !! "ngap-ip" = None →
  _on_config_changed w =
  MkRun (Raise (KeyError "ngap-ip")) w [ContainerCanConnect true].
Proof. intros Hc Hk. open_world w. by exec. Qed.

Lemma config_changed_missing_ngap_ip_witness :
  outcome (_on_config_changed world_no_config) = Raise (KeyError "ngap-ip").
Proof.
  by rewrite (config_changed_missing_ngap_ip world_no_config eq_refl eq_refl).
Defined.

(** X2.  With [ngap-ip] configured, the attachment absent and [interface]
    or [ngap-gateway] missing, [_on_config_changed] raises [KeyError] on the
    first of the two that is missing ([interface] is read first).  By then
    the config file has been pushed and the existence get issued; no create
    is issued and the attachments of the cluster are unchanged. *)
Theorem config_changed_missing_plugin_key (w : World) (cidr : string) :
  can_connect w = true →
  config w !! "ngap-ip" = Some cidr →
  config w !! "interface" = None ∨ config w !! "ngap-gateway" = None →
  nads w !! NETWORK_ATTACHMENT_DEFINITION_NAME = None →
  api_faults w (api_requests w) Get NetworkAttachmentDefinitionKind = None →
  let r := _on_config_changed w in
  let content := render (template w) (Py.split_head "/" cidr) in
  outcome r =
    Raise (KeyError match config w !! "interface" with
                    | Some _ => "ngap-gateway"
                    | None => "interface"
                    end) ∧
  trace r =
    [ContainerCanConnect true;
     ContainerPush config_file_path content;
     ClientGet NetworkAttachmentDefinitionKind NETWORK_ATTACHMENT_DEFINITION_NAME
       (model_name w) (Some (ApiError "NotFound"))] ∧
  files (final r) !! config_file_path = Some content ∧
  nads (final r) = nads w.
Proof.
  intros Hc Hcidr Hmiss Hnad Hf r content. subst r content. open_world w.
  destruct Hmiss as [Hmiss|Hmiss]; exec.
  all: repeat split; try reflexivity; apply lookup_insert_eq.
Qed.

Lemma config_changed_missing_plugin_key_witness :
  outcome (_on_config_changed world_no_interface) = Raise (KeyError "interface").
Proof.
  apply (config_changed_missing_plugin_key world_no_interface "10.0.0.5/24"
           eq_refl eq_refl (or_introl eq_refl) eq_refl eq_refl).
Defined.

(** ** A converged cluster *)

(** X3.  Scenario B, for any configuration.  With the attachment stored
    under its name and the networks key on the pod template, whatever they
    hold, and the gets served, [_on_config_changed] pushes the file, reads
    the attachment and the statefulset once each and returns: [interface]
    and [ngap-gateway] are not read, and the attachments and statefulsets of
    the cluster stay what they were, equal to the desired ones or not. *)
Theorem converged_pass_only_reads (w : World) (cidr : string)
    (nad : NetworkAttachmentDefinition) (stored : StatefulSet) :
  can_connect w = true →
  config w !! "ngap-ip" = Some cidr →
  nads w !! NETWORK_ATTACHMENT_DEFINITION_NAME = Some nad →
  statefulsets w !! app_name w = Some stored →
  is_Some (pod_networks stored) →
  (∀ n k, api_faults w n Get k = None) →
  let r := _on_config_changed w in
  outcome r = Ok tt ∧
  trace r =
    [ContainerCanConnect true;
     ContainerPush config_file_path (render (template w) (Py.split_head "/" cidr));
     ClientGet NetworkAttachmentDefinitionKind NETWORK_ATTACHMENT_DEFINITION_NAME
       (model_name w) None;
     ClientGet StatefulSetKind (app_name w) (model_name w) None] ∧
  nads (final r) = nads w ∧
  statefulsets (final r) = statefulsets w.
Proof.
  intros Hc Hcidr Hnad Hsts Hnet Hf r. subst r.
  destruct (config_changed_converged w cidr nad stored Hc Hcidr Hnad Hsts Hnet (Hf _ _))
    as ((err & Htrace & Herr & Hout) & _ & Hnads & Hstss).
  rewrite Hf in Herr. subst err. by rewrite Htrace, Hout, Hnads, Hstss.
Qed.

Lemma converged_pass_only_reads_witness :
  outcome (_on_config_changed world_B) = Ok tt ∧
  length (trace (_on_config_changed world_B)) = 4.
Proof.
  assert (∃ nad, nads world_B !! NETWORK_ATTACHMENT_DEFINITION_NAME = Some nad)
    as [nad Hnad] by (eexists; vm_compute; reflexivity).
  assert (∃ stored, statefulsets world_B !! app_name world_B = Some stored
                    ∧ is_Some (pod_networks stored))
    as (stored & Hsts & Hnet).
  { eexists. split; [vm_compute; reflexivity|]. vm_compute. eauto. }
  pose proof (converged_pass_only_reads world_B "10.0.0.5/24" nad stored
                eq_refl eq_refl Hnad Hsts Hnet (λ _ _, eq_refl)) as H.
  cbv zeta in H. destruct H as (H1 & H2 & _). rewrite H1, H2. by split.
Defined.

(** ** The handlers in sequence *)




(** X5.  [_on_remove] is not idempotent.  With the attachment in the
    cluster and two deletes served, a first [_on_remove] returns normally
    and the attachment is gone; a second one, on the world the first left,
    raises the [NotFound] of its delete and changes nothing. *)
Theorem remove_twice (w : World) :
  is_Some (nads w !! NETWORK_ATTACHMENT_DEFINITION_NAME) →
  api_faults w (api_requests w) Delete NetworkAttachmentDefinitionKind = None →
  api_faults w (S (api_requests w)) Delete NetworkAttachmentDefinitionKind = None →
  let r1 := _on_remove w in
  let r2 := _on_remove (final r1) in
  outcome r1 = Ok tt ∧
  nads (final r1) = delete NETWORK_ATTACHMENT_DEFINITION_NAME (nads w) ∧
  outcome r2 = Raise (ApiError "NotFound") ∧
  nads (final r2) = nads (final r1).
Proof.
  intros [nad Hnad] Hf1 Hf2 r1 r2. subst r1 r2. open_world w.
  run. rewrite Hf1, Hnad. run. rewrite Hf2, lookup_delete_eq. by run.
Qed.

Lemma remove_twice_witness :
  outcome (_on_remove (final (_on_remove world_B))) = Raise (ApiError "NotFound").
Proof.
  apply (remove_twice world_B).
  - eexists. vm_compute. reflexivity.
  - reflexivity.
  - reflexivity.
Defined.

(** X6.  [_on_remove] touches nothing but the attachment: in every world
    the statefulsets (and with them the networks annotation), the files of
    the container, the unit status and every attachment under another name
    are after it what they were before. *)
Theorem remove_touches_only_attachment (w : World) :
  let r := _on_remove w in
  statefulsets (final r) = statefulsets w ∧
  files (final r) = files w ∧
  unit_status (final r) = unit_status w ∧
  ∀ name,
    name ≠ NETWORK_ATTACHMENT_DEFINITION_NAME →
    nads (final r) !! name = nads w !! name.
Proof.
  intros r. subst r. open_world w. exec.
  all: repeat split; try reflexivity.
  intros name Hne. by rewrite lookup_delete_ne.
Qed.

(** ** The annotation patch *)

(** X7.  [_add_statefulset_pod_network_annotation] is a read-modify-write
    that keeps what it read.  With the two keys configured, the statefulset
    stored with an annotations mapping and the API serving its get and its
    patch, the call returns normally; the stored pod template then binds
    the networks key to the serialised entry, overwriting any earlier value,
    and every other annotation as before.  The statefulset's own metadata
    and the other statefulsets are unchanged. *)
Theorem annotation_patch_keeps_other_annotations (w : World) (cidr gateway : string)
    (sts : StatefulSet) (md : ObjectMeta) (a : gmap string string) :
  config w !! "ngap-ip" = Some cidr →
  config w !! "ngap-gateway" = Some gateway →
  statefulsets w !! app_name w = Some sts →
  template_metadata (spec_template (sts_spec sts)) = Some md →
  meta_annotations md = Some a →
  (∀ n m, api_faults w n m StatefulSetKind = None) →
  let r := _add_statefulset_pod_network_annotation w in
  outcome r = Ok tt ∧
  ∃ stored a',
    statefulsets (final r) !! app_name w = Some stored ∧
    pod_annotations stored = Some a' ∧
    a' !! networks_annotation =
      Some (Json.dumps (multus_annotation_json cidr gateway)) ∧
    (∀ k, k ≠ networks_annotation → a' !! k = a !! k) ∧
    sts_metadata stored = sts_metadata sts ∧
    ∀ name, name ≠ app_name w → statefulsets (final r) !! name = statefulsets w !! name.
Proof.
  intros Hcidr Hgw Hsts Hmd Ha Hf r. subst r. destruct md as [mname mann].
  open_world w. run. repeat (first [rewrite Hf | step]; run).
  split; [reflexivity|]. do 2 eexists.
  split; [apply lookup_insert_eq|].
  split; [by erewrite pod_annotations_merge by (exact Hmd || reflexivity)|].
  split; [apply lookup_union_Some_l, lookup_insert_eq|].
  split; [|split].
  - intros k Hk. rewrite lookup_union, lookup_insert_ne by done.
    by destruct (a !! k).
  - unfold merge_statefulset, set_template_annotations, merge_meta.
    cbn [sts_metadata]. destruct (sts_metadata sts) as [n [an|]]; cbn.
    + destruct n; by rewrite (idemp_L (∪)).
    + by destruct n.
  - intros name Hne. by rewrite lookup_insert_ne.
Qed.

Lemma annotation_patch_keeps_other_annotations_witness :
  outcome (_add_statefulset_pod_network_annotation world_A) = Ok tt.
Proof.
  apply (annotation_patch_keeps_other_annotations world_A "10.0.0.5/24" "10.0.0.1"
           (statefulset_with (Some ∅))
           {| meta_name := None; meta_annotations := Some ∅ |} ∅
           eq_refl eq_refl eq_refl eq_refl eq_refl (λ _ _, eq_refl)).
Defined.

(** ** What [_on_config_changed] never does *)

(** X8.  A pass that does not defer never sets the unit status: with the
    container reachable, the status after [_on_config_changed] is the one
    before it, however the pass ended (a waiting status stays, an active one
    is not set).  The only file of the container it writes is the config
    file. *)
Theorem config_changed_keeps_status (w : World) :
  can_connect w = true →
  let r := _on_config_changed w in
  unit_status (final r) = unit_status w ∧
  ∀ path, path ≠ config_file_path → files (final r) !! path = files w !! path.
Proof.
  intros Hc r. subst r. open_world w. exec.
  all: split; [reflexivity|]; intros path Hne.
  all: first [reflexivity | by rewrite lookup_insert_ne].
Qed.

Lemma config_changed_keeps_status_witness :
  unit_status (final (_on_config_changed world_A)) = MaintenanceStatus EmptyString.
Proof. apply (config_changed_keeps_status world_A eq_refl). Defined.

(** X9.  In every world one run of [_on_config_changed] pushes at most
    once, creates at most once and patches at most once; it issues at most
    seven calls on its collaborators, at most five of them requests to the
    cluster API. *)
Theorem config_changed_call_bounds (w : World) :
  let r := _on_config_changed w in
  (length (pushes (trace r)) ≤ 1)%nat ∧
  (length (creates (trace r)) ≤ 1)%nat ∧
  (length (patches (trace r)) ≤ 1)%nat ∧
  (length (trace r) ≤ 7)%nat ∧
  (length (List.filter is_client_call (trace r)) ≤ 5)%nat ∧
  api_requests (final r) =
    (api_requests w + length (List.filter is_client_call (trace r)))%nat.
Proof.
  intros r. subst r. open_world w. exec.
  all: cbv [pushes creates patches omap list_omap List.filter is_client_call length].
  all: lia.
Qed.

(** X10.  The file is written before the cluster is asked anything: if a
    run of [_on_config_changed] issues a request to the cluster API, its
    trace starts with the probe and the push of the config file, and the
    request comes after them. *)
Theorem push_precedes_cluster_calls (w : World) (c : Call) :
  c ∈ trace (_on_config_changed w) →
  is_client_call c = true →
  ∃ content rest,
    trace (_on_config_changed w) =
      ContainerCanConnect true :: ContainerPush config_file_path content :: rest ∧
    c ∈ rest.
Proof.
  open_world w. exec.
  all: intros Hin Hcall; apply elem_of_cons in Hin as [->|Hin]; [discriminate|].
  all: try (by apply elem_of_nil in Hin).
  all: apply elem_of_cons in Hin as [->|Hin]; [discriminate|].
  all: try (by apply elem_of_nil in Hin).
  all: by do 2 eexists.
Qed.

Lemma push_precedes_cluster_calls_witness :
  ∃ content rest,
    trace (_on_config_changed world_A) =
      ContainerCanConnect true :: ContainerPush config_file_path content :: rest ∧
    ClientGet StatefulSetKind "free5gc-amf" "core" None ∈ rest.
Proof.
  apply (push_precedes_cluster_calls world_A); [|reflexivity].
  apply list_elem_of_In. do 4 right. left. reflexivity.
Defined.

(** ** Failures of the annotation check *)

(** X11.  A pod template without metadata: [.annotations] is read off
    [None], so the annotation check raises [AttributeError].  With the
    container reachable and the gets of the statefulset served,
    [_on_config_changed] raises and issues no patch. *)
Theorem missing_template_metadata_raises (w : World) (sts : StatefulSet) :
  can_connect w = true →
  statefulsets w !! app_name w = Some sts →
  template_metadata (spec_template (sts_spec sts)) = None →
  (∀ n, api_faults w n Get StatefulSetKind = None) →
  let r := _on_config_changed w in
  outcome (_annotation_added_to_statefulset w) = Raise AttributeError ∧
  (∃ e, outcome r = Raise e) ∧
  patches (trace r) = [] ∧
  statefulsets (final r) = statefulsets w.
Proof.
  intros Hc Hsts Hmd Hf r. subst r. open_world w.
  split; [|split; [|split]].
  - run. rewrite Hf. by exec.
  - run. repeat (first [rewrite Hf | step]; run). all: by eexists.
  - run. repeat (first [rewrite Hf | step]; run). all: reflexivity.
  - run. repeat (first [rewrite Hf | step]; run). all: reflexivity.
Qed.

Lemma missing_template_metadata_raises_witness :
  outcome (_annotation_added_to_statefulset world_no_metadata) = Raise AttributeError.
Proof.
  eapply (missing_template_metadata_raises world_no_metadata _
            eq_refl eq_refl eq_refl (λ _, eq_refl)).
Defined.

(** X12.  The [NotFound] of the statefulset get is not caught, unlike the
    one of the attachment get.  With the configuration complete, the API
    serving every request, the attachment absent and no statefulset under
    the application's name, [_on_config_changed] raises [NotFound] from the
    annotation check, after it has pushed the file and created the
    attachment: both stay, and no patch is issued. *)
Theorem statefulset_not_found_propagates (w : World) (cidr interface gateway : string) :
  can_connect w = true →
  config w !! "ngap-ip" = Some cidr →
  config w !! "interface" = Some interface →
  config w !! "ngap-gateway" = Some gateway →
  nads w !! NETWORK_ATTACHMENT_DEFINITION_NAME = None →
  statefulsets w !! app_name w = None →
  (∀ n m k, api_faults w n m k = None) →
  let r := _on_config_changed w in
  outcome r = Raise (ApiError "NotFound") ∧
  last (trace r) =
    Some (ClientGet StatefulSetKind (app_name w) (model_name w)
            (Some (ApiError "NotFound"))) ∧
  length (creates (trace r)) = 1 ∧
  patches (trace r) = [] ∧
  is_Some (nads (final r) !! NETWORK_ATTACHMENT_DEFINITION_NAME) ∧
  is_Some (files (final r) !! config_file_path).
Proof.
  intros Hc Hcidr Hif Hgw Hnad Hsts Hf r. subst r. open_world w.
  run. repeat (first [rewrite Hf | step]; run).
  repeat split; try reflexivity; rewrite lookup_insert_eq; by eexists.
Qed.

Lemma statefulset_not_found_propagates_witness :
  outcome (_on_config_changed world_no_statefulset) = Raise (ApiError "NotFound").
Proof.
  apply (statefulset_not_found_propagates world_no_statefulset
           "10.0.0.5/24" "eth1" "10.0.0.1"
           eq_refl eq_refl eq_refl eq_refl eq_refl eq_refl (λ _ _ _, eq_refl)).
Defined.

(** ** Convergence *)

(** X13.  From any state of the cluster one pass converges.  With the
    container reachable, the three keys configured, the statefulset stored
    with an annotations mapping and the API serving every request,
    [_on_config_changed] returns normally whether or not the attachment and
    the annotation were there before, and leaves both in the cluster. *)
Theorem pass_converges_from_any_state (w : World) (cidr interface gateway : string)
    (sts : StatefulSet) (md : ObjectMeta) (a : gmap string string) :
  can_connect w = true →
  config w !! "ngap-ip" = Some cidr →
  config w !! "interface" = Some interface →
  config w !! "ngap-gateway" = Some gateway →
  statefulsets w !! app_name w = Some sts →
  template_metadata (spec_template (sts_spec sts)) = Some md →
  meta_annotations md = Some a →
  (∀ n m k, api_faults w n m k = None) →
  let r := _on_config_changed w in
  outcome r = Ok tt ∧
  is_Some (nads (final r) !! NETWORK_ATTACHMENT_DEFINITION_NAME) ∧
  ∃ stored,
    statefulsets (final r) !! app_name w = Some stored ∧
    is_Some (pod_networks stored).
Proof.
  intros Hc Hcidr Hif Hgw Hsts Hmd Ha Hf r. subst r.
  assert (outcome (_on_config_changed w) = Ok tt) as Hok.
  { destruct md as [mname mann]. open_world w.
    run. repeat (first [rewrite Hf | step]; run). all: reflexivity. }
  split; [exact Hok|].
  destruct (config_changed_converges w Hc Hok)
    as (_ & _ & _ & _ & _ & Hnad & stored & Hstored & Hnet).
  split; [exact Hnad|]. exists stored. split; [|exact Hnet].
  rewrite <- Hstored. f_equal. clear. destruct w. by exec.
Qed.

Lemma pass_converges_from_any_state_witness :
  outcome (_on_config_changed world_A) = Ok tt.
Proof.
  apply (pass_converges_from_any_state world_A "10.0.0.5/24" "eth1" "10.0.0.1"
           (statefulset_with (Some ∅))
           {| meta_name := None; meta_annotations := Some ∅ |} ∅
           eq_refl eq_refl eq_refl eq_refl eq_refl eq_refl eq_refl (λ _ _ _, eq_refl)).
Defined.

(** ** Repeating [_on_free5gc_amf_pebble_ready] *)

(** X14.  [_on_free5gc_amf_pebble_ready] has no gate on the layer: run on
    the world it left, it does again exactly what it did.  A run that
    deferred defers again, a run that declared the layer and replanned
    declares it and replans again, and the world is left the same. *)
Theorem pebble_ready_repeats (w : World) :
  _on_free5gc_amf_pebble_ready (final (_on_free5gc_amf_pebble_ready w)) =
  _on_free5gc_amf_pebble_ready w.
Proof.
  destruct (can_connect w) eqn:Hc.
  - destruct (files w !! config_file_path) as [content|] eqn:Hf.
    + rewrite (pebble_ready_starts w) by eauto. cbn [final].
      rewrite pebble_ready_starts by (destruct w; cbn in *; eauto).
      by destruct w.
    + rewrite (pebble_ready_no_file w) by done. cbn [final].
      rewrite pebble_ready_no_file by (by destruct w).
      by destruct w.
  - rewrite (pebble_ready_unreachable w) by done. cbn [final].
    rewrite pebble_ready_unreachable by (by destruct w).
    by destruct w.
Qed.

(** ** The address handed to the template *)

Lemma prefix_slash_ne (c : ascii) (s : string) :
  c ≠ "/"%char → String.prefix "/" (String c s) = false.
Proof.
  intros Hne. cbn [String.prefix].
  destruct (Ascii.ascii_dec "/" c) as [Heq|]; [|reflexivity].
  by destruct Hne.
Qed.

(** X15.  What [_write_config_file] gives the template is the part of
    [ngap-ip] before its first slash: it holds no slash, the value is that
    part followed by nothing or by a slash and a remainder, and a value
    without a slash is passed whole. *)
Theorem split_head_spec (s : string) :
  Py.contains "/" (Py.split_head "/" s) = false ∧
  (∃ rest,
     s = Py.split_head "/" s +:+ rest ∧
     (rest = EmptyString ∨ ∃ rest', rest = String "/" rest')) ∧
  (Py.contains "/" s = false → Py.split_head "/" s = s).
Proof.
  induction s as [|c s (IH1 & (rest & IH2 & IH3) & IH4)].
  - split; [reflexivity|]. split; [|done]. exists EmptyString. by split; [|left].
  - cbn [Py.split_head]. destruct (Ascii.eqb_spec c "/") as [->|Hne].
    + split; [reflexivity|]. split; [|intros H; cbn in H; by destruct s].
      exists (String "/" s). split; [reflexivity|]. right. by eexists.
    + split; [|split].
      * cbn [Py.contains]. by rewrite prefix_slash_ne, IH1.
      * exists rest. split; [|exact IH3].
        change (String c s = String c (Py.split_head "/" s +:+ rest)).
        by rewrite <- IH2.
      * cbn [Py.contains]. rewrite prefix_slash_ne by done. cbn [orb].
        intros H. by rewrite IH4.
Qed.

(** ** The text of the annotation *)

Lemma escape_plain (s : string) : plain s = true → Json.escape s = s.
Proof.
  induction s as [|c s IH]; [done|]. cbn [plain Json.escape]. intros H.
  apply andb_true_iff in H as [Hc Hs]. rewrite (IH Hs).
  unfold plain_char in Hc. unfold Json.escape_char.
  apply andb_true_iff in Hc as [Hc Hbs]. apply andb_true_iff in Hc as [Hc Hdq].
  apply andb_true_iff in Hc as [Hlo Hhi].
  apply negb_true_iff in Hbs, Hdq. rewrite Hbs, Hdq.
  apply N.leb_le in Hlo, Hhi.
  repeat match goal with
         | |- context [(N_of_ascii c =? ?k)%N] =>
             destruct (N.eqb_spec (N_of_ascii c) k); [lia|]
         end.
  assert ((32 <=? N_of_ascii c)%N = true) as -> by by apply N.leb_le.
  assert ((N_of_ascii c <=? 126)%N = true) as -> by by apply N.leb_le.
  reflexivity.
Qed.

Lemma encode_plain (s : string) : plain s = true → Json.encode_string s = Json.quoted s.
Proof. intros H. unfold Json.encode_string, Json.quoted. by rewrite escape_plain. Qed.

(** X16.  For a CIDR and a gateway made of plain characters (printable
    ASCII, no double quote, no backslash) the value
    [_add_statefulset_pod_network_annotation] binds the networks key to is
    the text
    [[{"name": "n2network-amf", "interface": "n2", "ips": "<cidr>",
    "gateway": "<gateway>"}]], the two values between double quotes as they
    are. *)
Theorem multus_annotation_text (cidr gateway : string) :
  plain cidr = true →
  plain gateway = true →
  Json.dumps (multus_annotation_json cidr gateway) =
  "[{" +:+ Json.quoted "name" +:+ ": " +:+ Json.quoted "n2network-amf" +:+ ", "
    +:+ Json.quoted "interface" +:+ ": " +:+ Json.quoted "n2" +:+ ", "
    +:+ Json.quoted "ips" +:+ ": " +:+ Json.quoted cidr +:+ ", "
    +:+ Json.quoted "gateway" +:+ ": " +:+ Json.quoted gateway +:+ "}]".
Proof.
  intros Hc Hg. unfold multus_annotation_json. cbn [Json.dumps].
  rewrite (encode_plain cidr Hc), (encode_plain gateway Hg).
  unfold Json.quoted. rewrite !append_assoc.
  change (String Json.dq (cidr +:+ String Json.dq EmptyString))
    with (String Json.dq EmptyString +:+ cidr +:+ String Json.dq EmptyString).
  change (String Json.dq (gateway +:+ String Json.dq EmptyString))
    with (String Json.dq EmptyString +:+ gateway +:+ String Json.dq EmptyString).
  rewrite !append_assoc. reflexivity.
Qed.

Lemma multus_annotation_text_witness :
  Py.contains (Json.quoted "ips" +:+ ": " +:+ Json.quoted "10.0.0.5/24")
    (Json.dumps (multus_annotation_json "10.0.0.5/24" "10.0.0.1")) = true.
Proof.
  rewrite (multus_annotation_text "10.0.0.5/24" "10.0.0.1" eq_refl eq_refl).
  vm_compute. reflexivity.
Defined.

(** ** Where the configuration goes *)

(** X17.  A first pass, for any configuration.  With the three keys
    configured, the attachment absent, the networks key absent from the pod
    template's annotations and the API serving every request,
    [_on_config_changed] returns normally and
    - pushes the template rendered with the part of [ngap-ip] before its
      first slash;
    - creates the attachment with a config of two plugins, [macvlan] and
      [tuning], where [interface] is the master of the first and
      [ngap-gateway] the gateway of its single route to [0.0.0.0/0];
    - patches the statefulset with the networks key bound to one entry that
      carries the whole of [ngap-ip] as [ips] and [ngap-gateway] as
      [gateway]. *)
Theorem first_pass_objects (w : World) (cidr interface gateway : string)
    (sts : StatefulSet) (md : ObjectMeta) (a : gmap string string) :
  can_connect w = true →
  config w !! "ngap-ip" = Some cidr →
  config w !! "interface" = Some interface →
  config w !! "ngap-gateway" = Some gateway →
  nads w !! NETWORK_ATTACHMENT_DEFINITION_NAME = None →
  statefulsets w !! app_name w = Some sts →
  template_metadata (spec_template (sts_spec sts)) = Some md →
  meta_annotations md = Some a →
  a !! networks_annotation = None →
  (∀ n m k, api_faults w n m k = None) →
  let r := _on_config_changed w in
  outcome r = Ok tt ∧
  pushes (trace r) =
    [(config_file_path, render (template w) (Py.split_head "/" cidr))] ∧
  (∃ nad spec,
     creates (trace r) = [nad] ∧
     nads (final r) !! NETWORK_ATTACHMENT_DEFINITION_NAME = Some nad ∧
     nad_metadata nad =
       {| meta_name := Some NETWORK_ATTACHMENT_DEFINITION_NAME;
          meta_annotations := None |} ∧
     nad_spec nad = {[ "config" := Json.dumps spec ]} ∧
     Json.at_path [Json.Key "plugins"; Json.Index 0; Json.Key "type"] spec =
       Some (Json.JString "macvlan") ∧
     Json.at_path [Json.Key "plugins"; Json.Index 0; Json.Key "master"] spec =
       Some (Json.JString interface) ∧
     Json.at_path
       [Json.Key "plugins"; Json.Index 0; Json.Key "ipam"; Json.Key "routes"] spec =
       Some (Json.JArray
               [ Json.JObject
                   [ ("dst", Json.JString "0.0.0.0/0");
                     ("gw", Json.JString gateway) ] ]) ∧
     Json.at_path [Json.Key "plugins"; Json.Index 1; Json.Key "type"] spec =
       Some (Json.JString "tuning") ∧
     Json.at_path [Json.Key "plugins"; Json.Index 2] spec = None) ∧
  (∃ obj,
     patches (trace r) = [obj] ∧
     pod_networks obj =
       Some (Json.dumps
               (Json.JArray
                  [ Json.JObject
                      [ ("name", Json.JString NETWORK_ATTACHMENT_DEFINITION_NAME);
                        ("interface", Json.JString "n2");
                        ("ips", Json.JString cidr);
                        ("gateway", Json.JString gateway) ] ]))).
Proof.
  intros Hc Hcidr Hif Hgw Hnad Hsts Hmd Ha Hkey Hf r. subst r.
  destruct md as [mname mann]. open_world w.
  run. repeat (first [rewrite Hf | step]; run).
  all: try (absurd_bool_decide; rewrite Hkey in *; by destruct Heqb).
  split; [reflexivity|]. split; [reflexivity|]. split.
  - do 2 eexists. split; [reflexivity|]. split; [apply lookup_insert_eq|].
    cbn [nad_metadata nad_spec]. by repeat split.
  - eexists. split; [reflexivity|].
    unfold pod_networks, pod_annotations, set_template_annotations.
    cbn [template_metadata spec_template sts_spec]. rewrite Hmd. cbn.
    apply lookup_insert_eq.
Qed.

Lemma first_pass_objects_witness :
  pushes (trace (_on_config_changed world_A)) =
    [(config_file_path, "ngapIpList: [10.0.0.5]")].
Proof.
  apply (first_pass_objects world_A "10.0.0.5/24" "eth1" "10.0.0.1"
           (statefulset_with (Some ∅))
           {| meta_name := None; meta_annotations := Some ∅ |} ∅
           eq_refl eq_refl eq_refl eq_refl eq_refl eq_refl eq_refl eq_refl
           eq_refl (λ _ _ _, eq_refl)).
Defined.

(** ** The two gates *)

(** X18.  The create is gated on the existence get alone.  When the
    attachment is stored under its name and the first request of the pass,
    the existence get, is served, [_on_config_changed] issues no create and
    leaves the attachments of the cluster as they were, whatever the stored
    attachment holds and however the rest of the pass goes. *)
Theorem no_create_when_attachment_present (w : World)
    (nad : NetworkAttachmentDefinition) :
  nads w !! NETWORK_ATTACHMENT_DEFINITION_NAME = Some nad →
  api_faults w (api_requests w) Get NetworkAttachmentDefinitionKind = None →
  let r := _on_config_changed w in
  creates (trace r) = [] ∧ nads (final r) = nads w.
Proof.
  intros Hnad Hf r. subst r. open_world w. exec.
  all: by split.
Qed.

Lemma no_create_when_attachment_present_witness :
  creates (trace (_on_config_changed world_B)) = [].
Proof.
  assert (∃ nad, nads world_B !! NETWORK_ATTACHMENT_DEFINITION_NAME = Some nad)
    as [nad Hnad] by (eexists; vm_compute; reflexivity).
  apply (no_create_when_attachment_present world_B nad Hnad eq_refl).
Defined.

(** X19.  The patch is gated on the presence of the networks key alone.
    When the stored statefulset has the key on its pod template, whatever
    its value, [_on_config_changed] issues no patch and leaves the
    statefulsets of the cluster as they were, whether or not the attachment
    exists and whatever the API answers. *)
Theorem no_patch_when_annotation_present (w : World) (stored : StatefulSet) :
  statefulsets w !! app_name w = Some stored →
  is_Some (pod_networks stored) →
  let r := _on_config_changed w in
  patches (trace r) = [] ∧ statefulsets (final r) = statefulsets w.
Proof.
  intros Hsts Hnet r. subst r.
  apply pod_networks_inv in Hnet as (md & a & Hmd & Ha & Hkey).
  destruct md as [mname mann]. open_world w. exec.
  all: try (absurd_bool_decide; contradiction).
  all: by split.
Qed.

Lemma no_patch_when_annotation_present_witness :
  patches (trace (_on_config_changed world_B)) = [].
Proof.
  assert (∃ stored, statefulsets world_B !! app_name world_B = Some stored
                    ∧ is_Some (pod_networks stored))
    as (stored & Hsts & Hnet).
  { eexists. split; [vm_compute; reflexivity|]. vm_compute. eauto. }
  apply (no_patch_when_annotation_present world_B stored Hsts Hnet).
Defined.
